(** * The survey server (main.py): request handling and response aggregation

    A shallow embedding of [dbexecute], [get_surveys], [get_action] and the
    RSGI application [app], over an explicit model of the two database tables,
    of the process-wide memo of [get_surveys] and of the statements sent to
    the database.

    Text.  A Python [str] is represented by its UTF-8 encoding, a [string] of
    8-bit characters; [bytes] are a [string] too.  The operations the server
    uses on text ([strip], [split], concatenation, comparison, the prefix
    test) act on the encoding as they act on the code points, because the
    characters they look for are ASCII. *)

From Stdlib Require Import ZArith NArith Ascii String List Lia Bool.
From Stdlib Require DecimalString.
From stdpp Require Import base option gmap strings list fin_maps.

#[local] Set Warnings "-register-all".
#[local] Arguments String.append !s1 s2 : simpl nomatch.
Local Open Scope Z_scope.

(* ===================================================================== *)
(** ** Characters and text *)
(* ===================================================================== *)

Module Text.

Definition dquote : ascii := "034"%char.
Definition backslash : ascii := "\"%char.
Definition slash : ascii := "/"%char.
Definition newline : ascii := "010"%char.

Definition chr (c : ascii) : string := String c EmptyString.

Definition code (c : ascii) : N := N_of_ascii c.

Definition between (lo hi : N) (c : ascii) : bool :=
  ((lo <=? code c) && (code c <=? hi))%N.

(** [str.casefold] on one character: the letters A-Z are folded, every
    other byte is kept.  The folding of characters outside ASCII is not
    modelled.  The test [startswith("python")] is the same with it: the
    only code points outside ASCII whose folding holds one of the letters
    p, y, t, h, o, n are U+1E96, U+1E97 and U+1E99, and they fold to the
    letter followed by a combining mark, which the word does not have. *)
Definition casefold_char (c : ascii) : ascii :=
  if between 65 90 c then ascii_of_N (code c + 32) else c.

Fixpoint casefold (s : string) : string :=
  match s with
  | EmptyString => EmptyString
  | String c s' => String (casefold_char c) (casefold s')
  end.

(** [s.startswith(p)] *)
Definition startswith (s p : string) : bool := String.prefix p s.

(** [s.lstrip(c)], [s.rstrip(c)] and [s.strip(c)] for a one-character
    set [c]. *)
Fixpoint lstrip (c : ascii) (s : string) : string :=
  match s with
  | EmptyString => EmptyString
  | String a s' => if Ascii.eqb a c then lstrip c s' else s
  end.

Fixpoint rstrip (c : ascii) (s : string) : string :=
  match s with
  | EmptyString => EmptyString
  | String a s' =>
      match rstrip c s' with
      | EmptyString => if Ascii.eqb a c then EmptyString else chr a
      | r => String a r
      end
  end.

Definition strip (c : ascii) (s : string) : string := rstrip c (lstrip c s).

(** [s.partition(c)]: the text before the first [c] and the text after
    it, or [None] when [c] does not occur. *)
Fixpoint partition (c : ascii) (s : string) : option (string * string) :=
  match s with
  | EmptyString => None
  | String a s' =>
      if Ascii.eqb a c then Some (EmptyString, s')
      else match partition c s' with
           | Some (l, r) => Some (String a l, r)
           | None => None
           end
  end.

(** [s.split(c, maxsplit)] *)
Fixpoint split (c : ascii) (maxsplit : nat) (s : string) : list string :=
  match maxsplit with
  | O => [s]
  | S k =>
      match partition c s with
      | Some (l, r) => l :: split c k r
      | None => [s]
      end
  end.

(** Does the character occur in the text? *)
Fixpoint occurs (c : ascii) (s : string) : bool :=
  match s with
  | EmptyString => false
  | String a s' => Ascii.eqb a c || occurs c s'
  end.

(** [sub in s] for texts. *)
Fixpoint contains (sub s : string) : bool :=
  String.prefix sub s ||
  match s with
  | EmptyString => false
  | String _ s' => contains sub s'
  end.

(** Well-formed UTF-8 (RFC 3629): no overlong form, no surrogate, nothing
    above U+10FFFF.  This is the domain of [bytes.decode]. *)
Definition cont (c : ascii) : bool := between 128 191 c.

Fixpoint utf8_valid (s : string) : bool :=
  match s with
  | EmptyString => true
  | String a s1 =>
      if between 0 127 a then utf8_valid s1
      else if between 194 223 a then
        match s1 with
        | String b s2 => cont b && utf8_valid s2
        | _ => false
        end
      else if between 224 239 a then
        match s1 with
        | String b (String c s3) =>
            (if between 224 224 a then between 160 191 b
             else if between 237 237 a then between 128 159 b
             else cont b)
            && cont c && utf8_valid s3
        | _ => false
        end
      else if between 240 244 a then
        match s1 with
        | String b (String c (String d s4)) =>
            (if between 240 240 a then between 144 191 b
             else if between 244 244 a then between 128 143 b
             else cont b)
            && cont c && cont d && utf8_valid s4
        | _ => false
        end
      else false
  end.

End Text.

(* ===================================================================== *)
(** ** JSON: the documents the server writes, and reading them back *)
(* ===================================================================== *)

Module Json.
Import Text.

(** A parsed JSON document.  [Float m e] stands for the number written
    with a fraction or an exponent, of value [m * 10^e]. *)
Inductive value : Type :=
| Null
| Bool (b : bool)
| Int (n : Z)
| Float (m e : Z)
| Str (s : string)
| Arr (l : list value)
| Obj (l : list (string * value)).

(** *** Writing *)

Definition hexdigit (n : N) : ascii :=
  match String.get (N.to_nat n) "0123456789abcdef" with
  | Some c => c
  | None => "0"%char
  end.

(** One character inside a string literal.  orjson and SQLite's
    [jsonAppendString] escape alike: the quote and the backslash by a
    backslash, the control characters by their short form or by
    [\u00XX]; every other byte is copied. *)
Definition escape_char (c : ascii) : string :=
  if Ascii.eqb c dquote then String backslash (chr dquote)
  else if Ascii.eqb c backslash then String backslash (chr backslash)
  else if between 0 31 c then
    match code c with
    | 8%N => "\b"
    | 9%N => "\t"
    | 10%N => "\n"
    | 12%N => "\f"
    | 13%N => "\r"
    | n => "\u00" +:+ chr (hexdigit (n / 16)) +:+ chr (hexdigit (n mod 16))
    end
  else chr c.

Fixpoint escape (s : string) : string :=
  match s with
  | EmptyString => EmptyString
  | String c s' => escape_char c +:+ escape s'
  end.

Definition quote (s : string) : string :=
  String dquote (escape s +:+ chr dquote).

Definition decimal (n : Z) : string :=
  DecimalString.NilZero.string_of_int (Z.to_int n).

(** The Python objects the server passes to [orjson.dumps]. *)
Inductive pyobj : Type :=
| PyInt (n : Z)
| PyStr (s : string)
| PyDict (items : list (string * pyobj)).

Fixpoint indent (depth : nat) : string :=
  match depth with
  | O => EmptyString
  | S d => "  " +:+ indent d
  end.

(** [orjson.dumps(o, option=OPT_INDENT_2)] at nesting [depth]. *)
Fixpoint dumps_indent (depth : nat) (o : pyobj) : string :=
  match o with
  | PyInt n => decimal n
  | PyStr s => quote s
  | PyDict [] => "{}"
  | PyDict ((k0, v0) :: rest) =>
      let item k v :=
        indent (S depth) +:+ quote k +:+ ": " +:+ v in
      "{" +:+ chr newline +:+ item k0 (dumps_indent (S depth) v0) +:+
      (fix items (l : list (string * pyobj)) : string :=
         match l with
         | [] => EmptyString
         | (k, v) :: l' =>
             "," +:+ chr newline +:+ item k (dumps_indent (S depth) v) +:+
             items l'
         end) rest +:+
      chr newline +:+ indent depth +:+ "}"
  end.

(** [orjson.dumps(o, option=OPT_INDENT_2 | OPT_APPEND_NEWLINE).decode()] *)
Definition dumps_indent2_newline (o : pyobj) : string :=
  dumps_indent 0 o +:+ chr newline.

Fixpoint of_pyobj (o : pyobj) : value :=
  match o with
  | PyInt n => Int n
  | PyStr s => Str s
  | PyDict items =>
      Obj ((fix go (l : list (string * pyobj)) : list (string * value) :=
              match l with
              | [] => []
              | (k, v) :: l' => (k, of_pyobj v) :: go l'
              end) items)
  end.

(** SQLite's [json_group_array] over text values: the literals, separated
    by commas, between brackets. *)
Fixpoint group_items (l : list string) : string :=
  match l with
  | [] => EmptyString
  | [x] => quote x
  | x :: l' => quote x +:+ "," +:+ group_items l'
  end.

Definition json_group_array (l : list string) : string :=
  "[" +:+ group_items l +:+ "]".

(** *** Reading (RFC 8259) *)

Definition is_ws (c : ascii) : bool :=
  Ascii.eqb c " " || Ascii.eqb c "009" || Ascii.eqb c newline || Ascii.eqb c "013".

Fixpoint skip_ws (s : string) : string :=
  match s with
  | String c s' => if is_ws c then skip_ws s' else s
  | EmptyString => s
  end.

Fixpoint strip_prefix (p s : string) : option string :=
  match p, s with
  | EmptyString, _ => Some s
  | String a p', String b s' => if Ascii.eqb a b then strip_prefix p' s' else None
  | String _ _, EmptyString => None
  end.

Definition hexval (c : ascii) : option N :=
  if between 48 57 c then Some (code c - 48)%N
  else if between 97 102 c then Some (code c - 87)%N
  else if between 65 70 c then Some (code c - 55)%N
  else None.

Definition hex4 (a b c d : ascii) : option N :=
  match hexval a, hexval b, hexval c, hexval d with
  | Some x, Some y, Some z, Some w => Some (((x * 16 + y) * 16 + z) * 16 + w)%N
  | _, _, _, _ => None
  end.

(** The UTF-8 form of a code point. *)
Definition utf8_encode (cp : N) : string :=
  (if cp <? 128 then chr (ascii_of_N cp)
   else if cp <? 2048 then
     String (ascii_of_N (192 + cp / 64)) (chr (ascii_of_N (128 + cp mod 64)))
   else if cp <? 65536 then
     String (ascii_of_N (224 + cp / 4096))
       (String (ascii_of_N (128 + (cp / 64) mod 64))
          (chr (ascii_of_N (128 + cp mod 64))))
   else
     String (ascii_of_N (240 + cp / 262144))
       (String (ascii_of_N (128 + (cp / 4096) mod 64))
          (String (ascii_of_N (128 + (cp / 64) mod 64))
             (chr (ascii_of_N (128 + cp mod 64))))))%N.

Definition simple_escape (e : ascii) : option ascii :=
  if Ascii.eqb e dquote then Some dquote
  else if Ascii.eqb e backslash then Some backslash
  else if Ascii.eqb e "/" then Some "/"%char
  else if Ascii.eqb e "b" then Some "008"%char
  else if Ascii.eqb e "f" then Some "012"%char
  else if Ascii.eqb e "n" then Some "010"%char
  else if Ascii.eqb e "r" then Some "013"%char
  else if Ascii.eqb e "t" then Some "009"%char
  else None.

Definition prepend (p : string) (r : option (string * string))
  : option (string * string) :=
  match r with
  | Some (x, rest) => Some (p +:+ x, rest)
  | None => None
  end.

Definition high_surrogate (cp : N) : bool := ((55296 <=? cp) && (cp <=? 56319))%N.
Definition low_surrogate (cp : N) : bool := ((56320 <=? cp) && (cp <=? 57343))%N.

(** The rest of a string literal, after its opening quote: the text it
    denotes and what follows its closing quote.  A surrogate escape must
    come in a pair, as for [orjson.loads]. *)
Fixpoint scan_string (s : string) : option (string * string) :=
  match s with
  | EmptyString => None
  | String c s1 =>
      if Ascii.eqb c dquote then Some (EmptyString, s1)
      else if Ascii.eqb c backslash then
        match s1 with
        | EmptyString => None
        | String e s2 =>
            match simple_escape e with
            | Some x => prepend (chr x) (scan_string s2)
            | None =>
                if Ascii.eqb e "u" then
                  match s2 with
                  | String h1 (String h2 (String h3 (String h4 s6))) =>
                      match hex4 h1 h2 h3 h4 with
                      | Some cp =>
                          if high_surrogate cp then
                            match s6 with
                            | String b (String u (String l1 (String l2 (String l3 (String l4 s12))))) =>
                                if Ascii.eqb b backslash && Ascii.eqb u "u" then
                                  match hex4 l1 l2 l3 l4 with
                                  | Some lo =>
                                      if low_surrogate lo then
                                        prepend
                                          (utf8_encode (65536 + (cp - 55296) * 1024 + (lo - 56320))%N)
                                          (scan_string s12)
                                      else None
                                  | None => None
                                  end
                                else None
                            | _ => None
                            end
                          else if low_surrogate cp then None
                          else prepend (utf8_encode cp) (scan_string s6)
                      | None => None
                      end
                  | _ => None
                  end
                else None
            end
        end
      else if between 0 31 c then None
      else prepend (chr c) (scan_string s1)
  end.

Definition is_digit (c : ascii) : bool := between 48 57 c.

(** The leading digits: their value on top of [acc], how many there are
    on top of [n], and what follows them. *)
Fixpoint scan_digits (s : string) (acc n : Z) : Z * Z * string :=
  match s with
  | String c s' =>
      if is_digit c then scan_digits s' (acc * 10 + Z.of_N (code c - 48)) (n + 1)
      else (acc, n, s)
  | EmptyString => (acc, n, s)
  end.

Definition scan_sign (s : string) : bool * string :=
  match s with
  | String c r => if Ascii.eqb c "-" then (true, r) else (false, s)
  | EmptyString => (false, s)
  end.

Definition scan_int_part (s : string) : option (Z * string) :=
  match s with
  | String d r =>
      if Ascii.eqb d "0" then Some (0, r)
      else if is_digit d then let '(v, _, r') := scan_digits s 0 0 in Some (v, r')
      else None
  | EmptyString => None
  end.

(** The optional fraction: the mantissa extended by the digits, and how
    many digits there were. *)
Definition scan_fraction (ip : Z) (s : string) : option (option (Z * Z) * string) :=
  match s with
  | String c r =>
      if Ascii.eqb c "." then
        let '(m, k, r') := scan_digits r ip 0 in
        if k =? 0 then None else Some (Some (m, k), r')
      else Some (None, s)
  | EmptyString => Some (None, s)
  end.

Definition scan_exponent (s : string) : option (option Z * string) :=
  match s with
  | String c r =>
      if Ascii.eqb c "e" || Ascii.eqb c "E" then
        let '(neg, r1) :=
          match r with
          | String g r0 =>
              if Ascii.eqb g "-" then (true, r0)
              else if Ascii.eqb g "+" then (false, r0)
              else (false, r)
          | EmptyString => (false, r)
          end in
        let '(e, k, r2) := scan_digits r1 0 0 in
        if k =? 0 then None else Some (Some (if neg then - e else e), r2)
      else Some (None, s)
  | EmptyString => Some (None, s)
  end.

Definition scan_number (s : string) : option (value * string) :=
  let '(neg, s0) := scan_sign s in
  match scan_int_part s0 with
  | None => None
  | Some (ip, r1) =>
      match scan_fraction ip r1 with
      | None => None
      | Some (fr, r2) =>
          match scan_exponent r2 with
          | None => None
          | Some (ex, r3) =>
              let sg (z : Z) := if neg then - z else z in
              match fr, ex with
              | None, None => Some (Int (sg ip), r3)
              | Some (m, k), None => Some (Float (sg m) (- k), r3)
              | None, Some e => Some (Float (sg ip) e, r3)
              | Some (m, k), Some e => Some (Float (sg m) (e - k), r3)
              end
          end
      end
  end.

(** One value, then (inside brackets or braces) the remaining elements or
    members up to the closing character.  The fuel bounds the nesting and
    the number of elements; [loads] gives more than any text can use. *)
Fixpoint parse_value (fuel : nat) (s : string) : option (value * string) :=
  match fuel with
  | O => None
  | S f =>
      match skip_ws s with
      | EmptyString => None
      | String c r =>
          if Ascii.eqb c dquote then
            match scan_string r with
            | Some (x, r') => Some (Str x, r')
            | None => None
            end
          else if Ascii.eqb c "[" then
            match skip_ws r with
            | String c' r' =>
                if Ascii.eqb c' "]" then Some (Arr [], r')
                else match parse_elements f r with
                     | Some (l, r'') => Some (Arr l, r'')
                     | None => None
                     end
            | EmptyString => None
            end
          else if Ascii.eqb c "{" then
            match skip_ws r with
            | String c' r' =>
                if Ascii.eqb c' "}" then Some (Obj [], r')
                else match parse_members f r with
                     | Some (l, r'') => Some (Obj l, r'')
                     | None => None
                     end
            | EmptyString => None
            end
          else if Ascii.eqb c "t" then
            match strip_prefix "rue" r with
            | Some r' => Some (Bool true, r')
            | None => None
            end
          else if Ascii.eqb c "f" then
            match strip_prefix "alse" r with
            | Some r' => Some (Bool false, r')
            | None => None
            end
          else if Ascii.eqb c "n" then
            match strip_prefix "ull" r with
            | Some r' => Some (Null, r')
            | None => None
            end
          else scan_number (String c r)
      end
  end
with parse_elements (fuel : nat) (s : string) : option (list value * string) :=
  match fuel with
  | O => None
  | S f =>
      match parse_value f s with
      | None => None
      | Some (v, r) =>
          match skip_ws r with
          | String c r' =>
              if Ascii.eqb c "," then
                match parse_elements f r' with
                | Some (l, r'') => Some (v :: l, r'')
                | None => None
                end
              else if Ascii.eqb c "]" then Some ([v], r')
              else None
          | EmptyString => None
          end
      end
  end
with parse_members (fuel : nat) (s : string)
  : option (list (string * value) * string) :=
  match fuel with
  | O => None
  | S f =>
      match skip_ws s with
      | String q r0 =>
          if Ascii.eqb q dquote then
            match scan_string r0 with
            | None => None
            | Some (k, r1) =>
                match skip_ws r1 with
                | String c r2 =>
                    if Ascii.eqb c ":" then
                      match parse_value f r2 with
                      | None => None
                      | Some (v, r3) =>
                          match skip_ws r3 with
                          | String c' r4 =>
                              if Ascii.eqb c' "," then
                                match parse_members f r4 with
                                | Some (l, r5) => Some ((k, v) :: l, r5)
                                | None => None
                                end
                              else if Ascii.eqb c' "}" then Some ([(k, v)], r4)
                              else None
                          | EmptyString => None
                          end
                      end
                    else None
                | EmptyString => None
                end
            end
          else None
      | EmptyString => None
      end
  end.

(** A whole document: one value and nothing but white space after it. *)
Definition loads_fuel (fuel : nat) (s : string) : option value :=
  match parse_value fuel s with
  | Some (v, r) =>
      match skip_ws r with
      | EmptyString => Some v
      | String _ _ => None
      end
  | None => None
  end.

Definition loads (s : string) : option value :=
  loads_fuel (S (String.length s)) s.

End Json.

(* ===================================================================== *)
(** ** The database, the process and the effects of the server *)
(* ===================================================================== *)

(** A row of table [survey] and a row of table [response] (see [dbinit]).
    Timestamps are kept as whole seconds; nothing in the request handling
    reads them. *)
Record SurveyRow := {
  survey_title : string;
  survey_created : Z;
  survey_question : string;
  survey_expiry : option Z
}.

Record ResponseRow := {
  title : string;
  created : Z;
  data : string;
  agent : string
}.

(** A value of the dict returned by [get_surveys]:
    [{"question": ..., "expiry": ...}]. *)
Record SurveyInfo := {
  question : string;
  expiry : option Z
}.

(** The statements the server sends through [dbexecute]. *)
Inductive Sql : Type :=
| Pragma (setting : string)
    (* pragma <setting>; *)
| SelectSurveyObject
    (* SELECT json_group_object(title, json_object('question',question,
       'expiry',expiry)) FROM survey; *)
| InsertResponse
    (* INSERT INTO response(title,data,agent) VALUES (:title,:data,:agent); *)
| SelectResponseArray.
    (* SELECT json_group_array(data) FROM response; *)

(** A column of a fetched row: a text, or the JSON object that SQLite has
    folded the survey table into.  The latter is kept as the mapping that
    [orjson.loads] returns for it. *)
Inductive Cell : Type :=
| CText (s : string)
| CObject (m : gmap string SurveyInfo).

Definition Row : Type := list Cell.

(** The argument [params] of [dbexecute]. *)
Inductive Params : Type :=
| PNone
| PDict (d : gmap string string)
| PList (l : list (gmap string string)).

(** What [dbexecute] returns: [None], one row, or all rows. *)
Inductive Fetched : Type :=
| FNone
| FRow (r : Row)
| FRows (l : list Row).

(** The state the server runs in: the two tables of survey.db, the clock
    behind [CURRENT_TIMESTAMP], the memo that [alru_cache] keeps for
    [get_surveys] in the process, and the statements executed so far
    (oldest first). *)
Record World := {
  survey : list SurveyRow;
  response : list ResponseRow;
  clock : Z;
  surveys_memo : option (gmap string SurveyInfo);
  executed : list Sql
}.

Definition set_response (f : list ResponseRow -> list ResponseRow) (w : World) : World :=
  {| survey := survey w; response := f (response w); clock := clock w;
     surveys_memo := surveys_memo w; executed := executed w |}.

Definition set_surveys_memo (m : option (gmap string SurveyInfo)) (w : World) : World :=
  {| survey := survey w; response := response w; clock := clock w;
     surveys_memo := m; executed := executed w |}.

Definition log_statement (q : Sql) (w : World) : World :=
  {| survey := survey w; response := response w; clock := clock w;
     surveys_memo := surveys_memo w; executed := executed w ++ [q] |}.

(** Exceptions that leave the handler. *)
Inductive Exn : Type :=
| AttributeError
| UnicodeDecodeError
| ProgrammingError
| TypeError
| IndexError.

Inductive result (A : Type) : Type :=
| Ok (a : A)
| Raise (e : Exn).
Arguments Ok {A} a.
Arguments Raise {A} e.

(** A computation of the server: it reads and changes the world, and
    returns or raises.  What it did before raising stays done. *)
Definition M (A : Type) : Type := World -> result A * World.

#[export] Instance M_ret : MRet M := fun A (a : A) w => (Ok a, w).

#[export] Instance M_bind : MBind M := fun A B (k : A -> M B) (c : M A) w =>
  match c w with
  | (Ok a, w') => k a w'
  | (Raise e, w') => (Raise e, w')
  end.

Definition raise {A : Type} (e : Exn) : M A := fun w => (Raise e, w).
Definition get_world : M World := fun w => (Ok w, w).
Definition modify_world (f : World -> World) : M unit := fun w => (Ok tt, f w).

(** *** The database *)

(** [json_group_object(title, json_object(...))] read back by
    [orjson.loads]: one key per title; of two rows with the same title the
    later one is kept. *)
Definition json_group_object (rows : list SurveyRow) : gmap string SurveyInfo :=
  fold_left
    (fun m r =>
       <[survey_title r := {| question := survey_question r;
                              expiry := survey_expiry r |}]> m)
    rows ∅.

(** [cursor.execute(sql, params)]: the rows the cursor then holds. *)
Definition cursor_execute (sql : Sql) (params : gmap string string) : M (list Row) :=
  _ ← modify_world (log_statement sql);
  w ← get_world;
  match sql with
  | Pragma _ => mret []
  | SelectSurveyObject => mret [[CObject (json_group_object (survey w))]]
  | SelectResponseArray =>
      mret [[CText (Json.json_group_array (map data (response w)))]]
  | InsertResponse =>
      match params !! "title", params !! "data", params !! "agent" with
      | Some t, Some d, Some a =>
          _ ← modify_world
                (set_response
                   (fun l => l ++ [{| title := t; created := clock w;
                                      data := d; agent := a |}]));
          mret []
      | _, _, _ => raise ProgrammingError
      end
  end.

(** [cursor.executemany(sql, params)]: the cursor holds no row afterwards. *)
Fixpoint cursor_executemany (sql : Sql) (params : list (gmap string string))
  : M (list Row) :=
  match params with
  | [] => mret []
  | p :: ps => _ ← cursor_execute sql p; cursor_executemany sql ps
  end.

Definition fetchone_of (rows : list Row) : Fetched :=
  match rows with
  | r :: _ => FRow r
  | [] => FNone
  end.

Definition dbexecute (sql : Sql) (params : Params) (fetchone fetchall : bool)
  : M Fetched :=
  let data := FNone in
  let params := match params with PNone => PDict ∅ | p => p end in
  _ ← cursor_execute (Pragma "journal_mode=wal") ∅;
  _ ← cursor_execute (Pragma "synchronous=normal") ∅;
  _ ← cursor_execute (Pragma "temp_store=memory") ∅;
  _ ← cursor_execute (Pragma "mmap_size=8589934592") ∅;
  rows ← match params with
         | PDict d => cursor_execute sql d
         | PList l => cursor_executemany sql l
         | PNone => mret []
         end;
  let data := if fetchone then fetchone_of rows else data in
  let data := if fetchall then FRows (if fetchone then tail rows else rows) else data in
  mret data.

(** *** The survey catalog *)

(** The body of [get_surveys]. *)
Definition get_surveys_uncached : M (gmap string SurveyInfo) :=
  result ← dbexecute SelectSurveyObject PNone true false;
  let surveys := ∅ in
  match result with
  | FRow row =>
      match row with
      | CObject m :: _ => mret m
      | CText _ :: _ => raise TypeError
      | [] => raise IndexError
      end
  | _ => mret surveys
  end.

(** [@alru_cache] on a function without arguments: the first value
    returned is kept for the life of the process; a raised exception is not
    kept. *)
Definition alru_cache (f : M (gmap string SurveyInfo)) : M (gmap string SurveyInfo) :=
  w ← get_world;
  match surveys_memo w with
  | Some m => mret m
  | None =>
      m ← f;
      _ ← modify_world (set_surveys_memo (Some m));
      mret m
  end.

Definition get_surveys : M (gmap string SurveyInfo) :=
  alru_cache get_surveys_uncached.

(** *** The router *)

Definition get_action (path : string) : M string :=
  match Text.split Text.slash 2 (Text.strip Text.slash path) with
  | action :: _ => mret action
  | [] => raise IndexError
  end.

(** *** The handler *)

Record Scope := {
  headers : gmap string string;
  path : string;
  method : string
}.

(** The protocol object: the request body it delivers when called. *)
Record Proto := {
  received : string
}.

(** The arguments of [proto.response_str]. *)
Record Response := {
  status : Z;
  response_headers : list (string * string);
  body : string
}.

(** [bytes.decode()] *)
Definition decode (b : string) : M string :=
  if Text.utf8_valid b then mret b else raise UnicodeDecodeError.

Definition error_envelope (code : Z) (message : string) : Json.pyobj :=
  Json.PyDict [("error", Json.PyDict [("code", Json.PyInt code);
                                      ("message", Json.PyStr message)])].

(** The f-string of the submit branch. *)
Definition submitted (answer : string) : string :=
  Text.chr Text.dquote +:+ "Successfully submitted answer " +:+
  Text.chr Text.backslash +:+ Text.chr Text.dquote +:+ answer +:+
  Text.chr Text.backslash +:+ Text.chr Text.dquote +:+ "." +:+
  Text.chr Text.dquote.

Definition app (scope : Scope) (proto : Proto) : M Response :=
  let message := EmptyString in
  let body_json := String Text.dquote (Text.chr Text.dquote) in
  let agent := headers scope !! "user-agent" in
  surveys ← get_surveys;
  action ← get_action (path scope);
  '(code, message, body_json) ←
    match agent with
    | None => raise AttributeError
    | Some agent =>
        if negb (Text.startswith (Text.casefold agent) "python") then
          mret (451, "Try using a Python HTTP client", body_json)
        else if negb (bool_decide (is_Some (surveys !! action))) then
          mret (404, "Could not find any survey called " +:+ action, body_json)
        else
          let code := 200 in
          if String.eqb (method scope) "POST" then
            answer ← decode (received proto);
            _ ← dbexecute InsertResponse
                  (PDict (<["title" := action]>
                            (<["data" := answer]> (<["agent" := agent]> ∅))))
                  false false;
            mret (code, message, submitted answer)
          else if String.eqb (method scope) "GET" then
            answer_list ← dbexecute SelectResponseArray PNone true false;
            match answer_list with
            | FRow (CText s :: _) => mret (code, message, s)
            | FRow (CObject _ :: _) => raise TypeError
            | _ => mret (code, message, body_json)
            end
          else mret (code, message, body_json)
    end;
  let body_json :=
    if negb (code =? 200) then
      Json.dumps_indent2_newline (error_envelope code message)
    else body_json in
  mret {| status := code;
          response_headers := [("content-type", "application/json")];
          body := body_json |}.

(* ===================================================================== *)
(** ** Requests and runs *)
(* ===================================================================== *)

(** The three surveys that [dbinit] inserts; [expiry] is the local time
    2022-12-02 10:00 as a timestamp. *)
Definition dbinit_surveys (now expiry : Z) : list SurveyRow :=
  [ {| survey_title := "favorite"; survey_created := now;
       survey_question :=
         "What is your favorite type of snake OR favorite Monty Python quote?";
       survey_expiry := Some expiry |};
    {| survey_title := "automation"; survey_created := now;
       survey_question :=
         "Name an automation tool or language you use for configuring or managing systems.";
       survey_expiry := Some expiry |};
    {| survey_title := "task"; survey_created := now;
       survey_question := "What is a task you wish you could script or automate?";
       survey_expiry := Some expiry |} ].

(** A freshly initialised database under a process that has served
    nothing yet. *)
Definition fresh_world : World :=
  {| survey := dbinit_surveys 1669000000 1669975200;
     response := [];
     clock := 1669000000;
     surveys_memo := None;
     executed := [] |}.

Definition request (verb target : string) (user_agent : option string) : Scope :=
  {| headers := match user_agent with
                | Some a => {["user-agent" := a]}
                | None => ∅
                end;
     path := target;
     method := verb |}.

Definition sending (payload : string) : Proto := {| received := payload |}.

(* ===================================================================== *)
(** ** Worlds and outcomes named in the statements *)
(* ===================================================================== *)

(** The world once [dbexecute] has opened its connection and set the four
    pragmas. *)
Definition opened (w : World) : World :=
  log_statement (Pragma "mmap_size=8589934592")
    (log_statement (Pragma "temp_store=memory")
       (log_statement (Pragma "synchronous=normal")
          (log_statement (Pragma "journal_mode=wal") w))).

(** The catalog that [get_surveys] answers with in a world, and the world
    it leaves. *)
Definition current_surveys (w : World) : gmap string SurveyInfo :=
  match surveys_memo w with
  | Some m => m
  | None => json_group_object (survey w)
  end.

Definition after_get_surveys (w : World) : World :=
  match surveys_memo w with
  | Some _ => w
  | None =>
      set_surveys_memo (Some (json_group_object (survey w)))
        (log_statement SelectSurveyObject (opened w))
  end.

(** The action of a path. *)
Definition action_of (p : string) : string :=
  match Text.partition Text.slash (Text.strip Text.slash p) with
  | Some (l, _) => l
  | None => Text.strip Text.slash p
  end.

(** The client test of the handler. *)
Definition allowed (user_agent : string) : bool :=
  Text.startswith (Text.casefold user_agent) "python".

Definition json_header : list (string * string) :=
  [("content-type", "application/json")].

Definition error_response (code : Z) (message : string) : Response :=
  {| status := code;
     response_headers := json_header;
     body := Json.dumps_indent2_newline (error_envelope code message) |}.

Definition ok_response (text : string) : Response :=
  {| status := 200; response_headers := json_header; body := text |}.

Definition not_found (action : string) : string :=
  "Could not find any survey called " +:+ action.

Definition rejection : string := "Try using a Python HTTP client".

Definition empty_literal : string := String Text.dquote (Text.chr Text.dquote).

(** The world after the INSERT of the submit branch. *)
Definition inserted (t d a : string) (w : World) : World :=
  set_response
    (fun l => l ++ [{| title := t; created := clock w; data := d; agent := a |}])
    (log_statement InsertResponse (opened w)).

Definition selected (w : World) : World :=
  log_statement SelectResponseArray (opened w).

(** The handler, case by case. *)
Definition app_outcome (scope : Scope) (proto : Proto) (w : World)
  : result Response * World :=
  let w0 := after_get_surveys w in
  let action := action_of (path scope) in
  match headers scope !! "user-agent" with
  | None => (Raise AttributeError, w0)
  | Some a =>
      if negb (allowed a) then (Ok (error_response 451 rejection), w0)
      else if negb (bool_decide (is_Some (current_surveys w !! action))) then
        (Ok (error_response 404 (not_found action)), w0)
      else if String.eqb (method scope) "POST" then
        if Text.utf8_valid (received proto) then
          (Ok (ok_response (submitted (received proto))),
           inserted action (received proto) a w0)
        else (Raise UnicodeDecodeError, w0)
      else if String.eqb (method scope) "GET" then
        (Ok (ok_response (Json.json_group_array (map data (response w0)))),
         selected w0)
      else (Ok (ok_response empty_literal), w0)
  end.

(** The error document as it is laid out: two spaces per level, one
    member per line, a newline at the end. *)
Definition envelope_layout (code : Z) (message : string) : string :=
  "{" +:+ Text.chr Text.newline +:+
  "  " +:+ Json.quote "error" +:+ ": {" +:+ Text.chr Text.newline +:+
  "    " +:+ Json.quote "code" +:+ ": " +:+ Json.decimal code +:+ "," +:+ Text.chr Text.newline +:+
  "    " +:+ Json.quote "message" +:+ ": " +:+ Json.quote message +:+ Text.chr Text.newline +:+
  "  }" +:+ Text.chr Text.newline +:+
  "}" +:+ Text.chr Text.newline.

(** What the error document denotes. *)
Definition envelope_value (code : Z) (message : string) : Json.value :=
  Json.Obj [("error", Json.Obj [("code", Json.Int code); ("message", Json.Str message)])].

(** The statements a catalog read sends: none when the memo is filled,
    the pragmas and the one SELECT otherwise; never an INSERT. *)
Definition catalog_statements (w : World) : list Sql :=
  match surveys_memo w with
  | Some _ => []
  | None =>
      [Pragma "journal_mode=wal"; Pragma "synchronous=normal";
       Pragma "temp_store=memory"; Pragma "mmap_size=8589934592";
       SelectSurveyObject]
  end.

(** A world with answers to two surveys, and a filled memo. *)
Definition busy_world : World :=
  {| survey := dbinit_surveys 1669000000 1669975200;
     response :=
       [ {| title := "favorite"; created := 1669000100;
            data := "Garter snake"; agent := "Python-urllib/3.11" |};
         {| title := "task"; created := 1669000200;
            data := "Backups"; agent := "python-requests/2.28" |} ];
     clock := 1669000300;
     surveys_memo := Some (json_group_object (dbinit_surveys 1669000000 1669975200));
     executed := [] |}.

(** The same request [n] times in a row: the outcomes, and the world that
    is left. *)
Fixpoint repeat_app (n : nat) (scope : Scope) (proto : Proto) (w : World)
  : list (result Response) * World :=
  match n with
  | O => ([], w)
  | S k =>
      let '(r, w1) := app scope proto w in
      let '(rs, w2) := repeat_app k scope proto w1 in
      (r :: rs, w2)
  end.

(** The world after the handler has served one request, and several in
    turn, whatever their outcomes. *)
Definition serve (w : World) (req : Scope * Proto) : World :=
  snd (app (fst req) (snd req) w).

Definition serve_all (reqs : list (Scope * Proto)) (w : World) : World :=
  fold_left serve reqs w.

(** The process of [fresh_world] after its first catalog read, over a
    database whose survey table has since lost two rows and had the third
    reworded. *)
Definition changed_world : World :=
  {| survey :=
       [ {| survey_title := "task"; survey_created := 1669000500;
            survey_question := "Anything to automate?";
            survey_expiry := None |} ];
     response := [];
     clock := 1669000600;
     surveys_memo := Some (json_group_object (dbinit_surveys 1669000000 1669975200));
     executed := executed (snd (get_surveys fresh_world)) |}.

(** The sentence the reply is meant to carry. *)
Definition submitted_sentence (answer : string) : string :=
  "Successfully submitted answer " +:+ Text.chr Text.dquote +:+ answer +:+
  Text.chr Text.dquote +:+ ".".

(** An answer with a quotation in it: say "hi" *)
Definition quoting_answer : string :=
  "say " +:+ Text.chr Text.dquote +:+ "hi" +:+ Text.chr Text.dquote.

(* ===================================================================== *)
(** ** The rest of the server, and notions for its properties *)
(* ===================================================================== *)

(** [submit_survey]: its body is its docstring; it returns [None]. *)
Definition submit_survey (survey answer : string) : M unit := mret tt.

(** Every character of the text passes the test. *)
Fixpoint all_chars (f : ascii -> bool) (s : string) : bool :=
  match s with
  | EmptyString => true
  | String c s' => f c && all_chars f s'
  end.

(** A path of separators only. *)
Definition only_slashes (s : string) : bool :=
  all_chars (fun c => Ascii.eqb c Text.slash) s.

(** A character that a JSON string literal holds as it is. *)
Definition plain_char (c : ascii) : bool :=
  negb (Ascii.eqb c Text.dquote) && negb (Ascii.eqb c Text.backslash)
  && negb (Text.between 0 31 c).

Definition plain (s : string) : bool := all_chars plain_char s.

(** What the catalog keeps of a survey row. *)
Definition info_of (r : SurveyRow) : SurveyInfo :=
  {| question := survey_question r; expiry := survey_expiry r |}.

(** The last row of the table with the given title. *)
Fixpoint last_titled (t : string) (rows : list SurveyRow) : option SurveyRow :=
  match rows with
  | [] => None
  | r :: rows' =>
      match last_titled t rows' with
      | Some r' => Some r'
      | None => if String.eqb (survey_title r) t then Some r else None
      end
  end.

(** A row as the handler writes them: for a survey of the catalog, from a
    client that passes the test, with text that is UTF-8. *)
Definition handler_row (surveys : gmap string SurveyInfo) (r : ResponseRow) : Prop :=
  is_Some (surveys !! title r) /\
  allowed (agent r) = true /\
  Text.utf8_valid (data r) = true.

(** The statements added to the log between two worlds, when the second
    continues the first. *)
Definition is_catalog_select (q : Sql) : bool :=
  match q with
  | SelectSurveyObject => true
  | _ => false
  end.

Definition is_insert (q : Sql) : bool :=
  match q with
  | InsertResponse => true
  | _ => false
  end.

(** The parameters of the INSERT for a row. *)
Definition row_params (t d a : string) : gmap string string :=
  <["title" := t]> (<["data" := d]> (<["agent" := a]> ∅)).

Definition complete_params (p : gmap string string) : bool :=
  bool_decide (is_Some (p !! "title")) && bool_decide (is_Some (p !! "data"))
  && bool_decide (is_Some (p !! "agent")).

(** The row that the INSERT writes for a mapping that binds the three
    names. *)
Definition row_of_params (now : Z) (p : gmap string string) : list ResponseRow :=
  match p !! "title", p !! "data", p !! "agent" with
  | Some t, Some d, Some a =>
      [{| title := t; created := now; data := d; agent := a |}]
  | _, _, _ => []
  end.

(** The database of [fresh_world] after [dbinit] has seeded it a second
    time, later, under a process that has served nothing yet. *)
Definition seeded_twice : World :=
  {| survey := dbinit_surveys 1669000000 1669975200
               ++ dbinit_surveys 1669100000 1669975200;
     response := [];
     clock := 1669100000;
     surveys_memo := None;
     executed := [] |}.

(* ===================================================================== *)
(** ** The client (survey_client.py) *)
(* ===================================================================== *)

(** The client runs against the server: its state holds the world of the
    server, the version of the Python that runs the client (urllib names
    it in its default User-Agent) and what has been printed.

    The exchange over HTTP is that of urllib and of the RSGI server: the
    request line carries the text of the URL after the host; header names
    reach the application in lower case; a request with data is a POST,
    one without a GET; a reply outside 200-299 makes [urlopen] raise
    [HTTPError]; an exception of the application is answered 500.  Only
    targets made of letters, digits, [-], [.], [_], [~] and [/] are
    covered: the libraries rewrite or refuse others. *)
Module Client.

Inductive Exn : Type :=
| HTTPError (code : Z)      (* urllib.error.HTTPError *)
| JSONDecodeError           (* json.loads *)
| UnicodeEncodeError        (* answer.encode() *)
| ReplyDecodeError          (* UnicodeDecodeError of response.read().decode() *)
| NotIterable               (* TypeError of the for loop *)
| TargetNotCovered.         (* a target outside the covered ones *)

(** What [run] writes: [pprint.pprint(v)] or [print(v)]. *)
Inductive Output : Type :=
| PPrint (v : Json.value)
| Print (v : Json.value).

Record State := {
  server : World;
  python_version : string;
  stdout : list Output
}.

Inductive outcome (A : Type) : Type :=
| Done (a : A)
| Failed (e : Exn).
Arguments Done {A} a.
Arguments Failed {A} e.

Definition C (A : Type) : Type := State -> outcome A * State.

#[export] Instance C_ret : MRet C := fun A (a : A) st => (Done a, st).

#[export] Instance C_bind : MBind C := fun A B (k : A -> C B) (c : C A) st =>
  match c st with
  | (Done a, st') => k a st'
  | (Failed e, st') => (Failed e, st')
  end.

Definition fail {A : Type} (e : Exn) : C A := fun st => (Failed e, st).

Definition SERVER : string := "http://localhost:8000".

Definition HEADERS : gmap string string :=
  {["Content-Type" := "application/json; charset=UTF-8"]}.

(** [urllib.request.Request(url, data=..., headers=...)] *)
Record Request := {
  full_url : string;
  request_data : option string;
  request_headers : gmap string string
}.

(** The reply handed to the [with] block. *)
Record Reply := {
  read : string
}.

Definition unreserved (c : ascii) : bool :=
  Text.between 65 90 c || Text.between 97 122 c || Text.between 48 57 c
  || Ascii.eqb c "-" || Ascii.eqb c "." || Ascii.eqb c "_" || Ascii.eqb c "~".

Definition target_char (c : ascii) : bool :=
  unreserved c || Ascii.eqb c Text.slash.

(** The path the server is asked for. *)
Definition request_target (url : string) : option string :=
  match Json.strip_prefix SERVER url with
  | Some EmptyString => Some "/"
  | Some t =>
      if Text.startswith t "/" && all_chars target_char t then Some t else None
  | None => None
  end.

(** The headers as the application sees them: the names in lower case,
    and the User-Agent of urllib unless the request brings its own. *)
Definition wire_headers (version : string) (h : gmap string string)
  : gmap string string :=
  let sent : gmap string string :=
    list_to_map (map (fun kv => (Text.casefold (fst kv), snd kv)) (map_to_list h)) in
  match sent !! "user-agent" with
  | Some _ => sent
  | None => <["user-agent" := "Python-urllib/" +:+ version]> sent
  end.

(** The scope that the server receives from [show] and from [submit]. *)
Definition client_scope (version survey : string) (verb : string) : Scope :=
  {| headers := wire_headers version HEADERS;
     path := "/" +:+ survey;
     method := verb |}.

(** [urlopen(httprequest)] against the server. *)
Definition urlopen (httprequest : Request) : C Reply := fun st =>
  match request_target (full_url httprequest) with
  | None => (Failed TargetNotCovered, st)
  | Some target =>
      let scope :=
        {| headers := wire_headers (python_version st) (request_headers httprequest);
           path := target;
           method := match request_data httprequest with
                     | Some _ => "POST"
                     | None => "GET"
                     end |} in
      let proto :=
        sending (match request_data httprequest with
                 | Some d => d
                 | None => EmptyString
                 end) in
      let '(served, w') := app scope proto (server st) in
      let st' := {| server := w'; python_version := python_version st;
                    stdout := stdout st |} in
      match served with
      | Ok r =>
          if (200 <=? status r) && (status r <? 300) then
            (Done {| read := body r |}, st')
          else (Failed (HTTPError (status r)), st')
      | Raise _ => (Failed (HTTPError 500), st')
      end
  end.

(** [str.encode()] and [bytes.decode()] on the side of the client. *)
Definition encode (s : string) : C string :=
  if Text.utf8_valid s then mret s else fail UnicodeEncodeError.

Definition decode (b : string) : C string :=
  if Text.utf8_valid b then mret b else fail ReplyDecodeError.

(** [json.loads(raw)], for the documents of RFC 8259. *)
Definition json_loads (raw : string) : C Json.value :=
  match Json.loads raw with
  | Some v => mret v
  | None => fail JSONDecodeError
  end.

Definition submit (survey answer : string) : C Json.value :=
  data ← encode answer;
  let httprequest :=
    {| full_url := SERVER +:+ "/" +:+ survey;
       request_data := Some data;
       request_headers := HEADERS |} in
  response ← urlopen httprequest;
  raw ← decode (read response);
  result ← json_loads raw;
  mret result.

Definition show (survey : string) : C Json.value :=
  let httprequest :=
    {| full_url := SERVER +:+ "/" +:+ survey;
       request_data := None;
       request_headers := HEADERS |} in
  response ← urlopen httprequest;
  raw ← decode (read response);
  result ← json_loads raw;
  mret result.

Definition write (o : Output) : C unit := fun st =>
  (Done tt, {| server := server st; python_version := python_version st;
               stdout := stdout st ++ [o] |}).

(** The characters of a text: a new one starts at every byte that is not
    a continuation byte. *)
Fixpoint characters (s : string) : list string :=
  match s with
  | EmptyString => []
  | String c s' =>
      match characters s' with
      | first :: others =>
          match s' with
          | String c' _ =>
              if Text.cont c' then (String c first) :: others
              else Text.chr c :: first :: others
          | EmptyString => Text.chr c :: first :: others
          end
      | [] => [Text.chr c]
      end
  end.

(** What a [for] loop goes through. *)
Definition iterate (v : Json.value) : C (list Json.value) :=
  match v with
  | Json.Arr l => mret l
  | Json.Str s => mret (map Json.Str (characters s))
  | Json.Obj members => mret (map (fun kv => Json.Str (fst kv)) members)
  | _ => fail NotIterable
  end.

Fixpoint print_each (l : list Json.value) : C unit :=
  match l with
  | [] => mret tt
  | v :: l' => _ ← write (Print v); print_each l'
  end.

(** [run], from the parsed arguments on: [survey] is required, [answer]
    is [None] without [-a]. *)
Definition run (survey : string) (answer : option string) : C unit :=
  match answer with
  | Some (String _ _ as given) =>
      result ← submit survey given;
      write (PPrint result)
  | _ =>
      result ← show survey;
      answers ← iterate result;
      print_each answers
  end.

(** What follows [urlopen] in [show] and in [submit]. *)
Definition after_urlopen (r : outcome Reply * State) : outcome Json.value * State :=
  match r with
  | (Done response, st1) =>
      if Text.utf8_valid (read response) then
        match Json.loads (read response) with
        | Some v => (Done v, st1)
        | None => (Failed JSONDecodeError, st1)
        end
      else (Failed ReplyDecodeError, st1)
  | (Failed e, st1) => (Failed e, st1)
  end.

End Client.

(** A client under Python 3.11 that has printed nothing, facing the
    server of [fresh_world], and one facing that of [busy_world]. *)
Definition fresh_client : Client.State :=
  {| Client.server := fresh_world; Client.python_version := "3.11";
     Client.stdout := [] |}.

Definition busy_client : Client.State :=
  {| Client.server := busy_world; Client.python_version := "3.11";
     Client.stdout := [] |}.

(* ===================================================================== *)
(** ** Examples of the text and JSON functions *)
(* ===================================================================== *)

Example strip_ex : Text.strip Text.slash "//favorite/x//" = "favorite/x".
Proof. reflexivity. Qed.

Example split_ex : Text.split Text.slash 2 "a/b/c/d" = ["a"; "b"; "c/d"].
Proof. reflexivity. Qed.

Example casefold_ex : Text.casefold "PyThOn-urllib/3.11" = "python-urllib/3.11".
Proof. reflexivity. Qed.

Example dumps_ex :
  Json.dumps_indent2_newline
    (Json.PyDict [("error", Json.PyDict [("code", Json.PyInt 404); ("message", Json.PyStr "x")])])
  = "{" +:+ Text.chr Text.newline +:+
    "  " +:+ Json.quote "error" +:+ ": {" +:+ Text.chr Text.newline +:+
    "    " +:+ Json.quote "code" +:+ ": 404," +:+ Text.chr Text.newline +:+
    "    " +:+ Json.quote "message" +:+ ": " +:+ Json.quote "x" +:+ Text.chr Text.newline +:+
    "  }" +:+ Text.chr Text.newline +:+
    "}" +:+ Text.chr Text.newline.
Proof. reflexivity. Qed.

(* ===================================================================== *)
(** ** The parts one by one *)
(* ===================================================================== *)

Lemma get_surveys_eval (w : World) :
  get_surveys w = (Ok (current_surveys w), after_get_surveys w).
Proof.
  unfold get_surveys, alru_cache, current_surveys, after_get_surveys.
  unfold mbind, M_bind, get_world.
  destruct (surveys_memo w) as [m|] eqn:Hm; reflexivity.
Qed.

Lemma get_action_eval (p : string) (w : World) :
  get_action p w = (Ok (action_of p), w).
Proof.
  unfold get_action, action_of. simpl.
  destruct (Text.partition Text.slash (Text.strip Text.slash p)) as [[l r]|];
    [destruct (Text.partition Text.slash r) as [[l' r']|] |]; reflexivity.
Qed.

Lemma insert_eval (t d a : string) (w : World) :
  dbexecute InsertResponse
    (PDict (<["title" := t]> (<["data" := d]> (<["agent" := a]> ∅))))
    false false w
  = (Ok FNone, inserted t d a w).
Proof.
  unfold dbexecute, mbind, M_bind. simpl.
  unfold cursor_execute at 1. unfold mbind, M_bind, modify_world, get_world.
  rewrite lookup_insert_eq.
  rewrite lookup_insert_ne by done. rewrite lookup_insert_eq.
  do 2 (rewrite lookup_insert_ne by done). rewrite lookup_insert_eq.
  reflexivity.
Qed.

Lemma select_eval (w : World) :
  dbexecute SelectResponseArray PNone true false w
  = (Ok (FRow [CText (Json.json_group_array (map data (response w)))]),
     selected w).
Proof. reflexivity. Qed.

Lemma app_eval (scope : Scope) (proto : Proto) (w : World) :
  app scope proto w = app_outcome scope proto w.
Proof.
  unfold app, app_outcome.
  unfold mbind at 1. unfold M_bind at 1. rewrite get_surveys_eval.
  unfold mbind at 1. unfold M_bind at 1. rewrite get_action_eval.
  unfold mbind at 1. unfold M_bind at 1.
  destruct (headers scope !! "user-agent") as [a|]; [|reflexivity].
  fold (allowed a).
  destruct (negb (allowed a)); [reflexivity|].
  destruct (negb (bool_decide (is_Some (current_surveys w !! action_of (path scope)))));
    [reflexivity|].
  destruct (String.eqb (method scope) "POST").
  - unfold decode.
    destruct (Text.utf8_valid (received proto)); [|reflexivity].
    unfold mbind at 1. unfold M_bind at 1. unfold mret at 1. unfold M_ret at 1.
    unfold mbind at 1. unfold M_bind at 1.
    rewrite insert_eval. reflexivity.
  - destruct (String.eqb (method scope) "GET"); [|reflexivity].
    unfold mbind at 1. unfold M_bind at 1.
    rewrite select_eval. reflexivity.
Qed.

(* ===================================================================== *)
(** ** Reading back what was written *)
(* ===================================================================== *)

Section ReadBack.
Import Text Json.

Lemma append_assoc (a b c : string) : (a +:+ b) +:+ c = a +:+ (b +:+ c).
Proof. induction a as [|x a IH]; simpl; [reflexivity | now rewrite IH]. Qed.

Lemma length_append (a b : string) :
  String.length (a +:+ b) = (String.length a + String.length b)%nat.
Proof. induction a as [|x a IH]; simpl; [reflexivity | now rewrite IH]. Qed.

(** An escaped character reads back as the character. *)
Lemma scan_escape_char (c : ascii) (t : string) :
  scan_string (escape_char c +:+ t) = prepend (chr c) (scan_string t).
Proof.
  destruct c as [b0 b1 b2 b3 b4 b5 b6 b7].
  destruct b0, b1, b2, b3, b4, b5, b6, b7; reflexivity.
Qed.

Lemma scan_escape (s rest : string) :
  scan_string (escape s +:+ String dquote rest) = Some (s, rest).
Proof.
  induction s as [|c s IH]; [reflexivity|].
  cbn [escape]. rewrite append_assoc, scan_escape_char, IH. reflexivity.
Qed.

Lemma scan_quote (s rest : string) :
  exists t, quote s +:+ rest = String dquote t /\ scan_string t = Some (s, rest).
Proof.
  exists (escape s +:+ String dquote rest). split.
  - unfold quote. cbn [String.append]. now rewrite append_assoc.
  - apply scan_escape.
Qed.

(** The parser, one step at a time. *)
Lemma parse_value_literal (f : nat) (t : string) :
  parse_value (S f) (String dquote t)
  = match scan_string t with
    | Some (x, r) => Some (Str x, r)
    | None => None
    end.
Proof. reflexivity. Qed.

Lemma parse_value_bracket (f : nat) (t : string) :
  parse_value (S f) (String "[" (String dquote t))
  = match parse_elements f (String dquote t) with
    | Some (l, r) => Some (Arr l, r)
    | None => None
    end.
Proof. reflexivity. Qed.

Lemma parse_elements_step (f : nat) (s : string) :
  parse_elements (S f) s
  = match parse_value f s with
    | None => None
    | Some (v, r) =>
        match skip_ws r with
        | String c r' =>
            if Ascii.eqb c "," then
              match parse_elements f r' with
              | Some (l, r'') => Some (v :: l, r'')
              | None => None
              end
            else if Ascii.eqb c "]" then Some ([v], r')
            else None
        | EmptyString => None
        end
    end.
Proof. reflexivity. Qed.

#[local] Arguments parse_value : simpl never.
#[local] Arguments parse_elements : simpl never.
#[local] Arguments parse_members : simpl never.

(** A literal parses as its text, with any fuel. *)
Lemma parse_quote (f : nat) (s rest : string) :
  parse_value (S f) (quote s +:+ rest) = Some (Str s, rest).
Proof.
  destruct (scan_quote s rest) as (t & -> & Ht).
  now rewrite parse_value_literal, Ht.
Qed.

(** The items of [json_group_array] parse as the texts, given one unit
    of fuel per item and one more. *)
Lemma parse_group_items (l : list string) :
  forall (f : nat) (rest : string),
    l <> [] -> (length l <= f)%nat ->
    parse_elements (S f) (group_items l +:+ String "]" rest)
    = Some (map Str l, rest).
Proof.
  induction l as [|x l IH]; intros f rest Hne Hf; [congruence|].
  destruct f as [|f]; [simpl in Hf; lia|].
  rewrite parse_elements_step.
  destruct l as [|y l].
  - cbn [group_items]. rewrite parse_quote. reflexivity.
  - change (group_items (x :: y :: l)) with (quote x +:+ "," +:+ group_items (y :: l)).
    rewrite append_assoc, parse_quote, append_assoc.
    simpl. rewrite IH; [reflexivity | congruence | simpl in Hf |- *; lia].
Qed.

Lemma group_items_head (l : list string) :
  l <> [] -> exists t, group_items l = String dquote t.
Proof.
  destruct l as [|x l]; [congruence|]. intros _.
  destruct l; cbn; eauto.
Qed.

Lemma parse_group_array (l : list string) (f : nat) :
  (length l < f)%nat ->
  parse_value (S f) (json_group_array l) = Some (Arr (map Str l), EmptyString).
Proof.
  intros Hf. unfold json_group_array.
  destruct l as [|x l]; [reflexivity|].
  destruct f as [|f]; [lia|].
  pose proof (parse_group_items (x :: l) f EmptyString) as Hp.
  destruct (group_items_head (x :: l)) as [t Ht]; [congruence|].
  rewrite Ht in *. simpl String.append in *.
  rewrite parse_value_bracket, Hp; [reflexivity | congruence | simpl in Hf |- *; lia].
Qed.

Lemma quote_length (s : string) : (2 <= String.length (quote s))%nat.
Proof.
  unfold quote. cbn [String.length]. rewrite length_append. simpl. lia.
Qed.

Lemma group_items_length (l : list string) :
  (2 * length l <= String.length (group_items l))%nat.
Proof.
  induction l as [|x l IH]; [simpl; lia|].
  pose proof (quote_length x) as Hx.
  destruct l as [|y l].
  - cbn [group_items length]. lia.
  - change (group_items (x :: y :: l)) with (quote x +:+ "," +:+ group_items (y :: l)).
    rewrite !length_append. cbn [length] in *. lia.
Qed.

(** [json_group_array] of any texts is a JSON array of those texts. *)
Lemma loads_group_array (l : list string) :
  loads (json_group_array l) = Some (Arr (map Str l)).
Proof.
  unfold loads, loads_fuel.
  rewrite parse_group_array; [reflexivity|].
  unfold json_group_array. cbn [String.append String.length].
  rewrite length_append. pose proof (group_items_length l). cbn [String.length]. lia.
Qed.

End ReadBack.

Section Envelope.
Import Text Json.

Lemma dumps_envelope (code : Z) (message : string) :
  dumps_indent2_newline (error_envelope code message)
  = envelope_layout code message.
Proof.
  unfold dumps_indent2_newline, error_envelope, envelope_layout.
  cbn [dumps_indent indent].
  rewrite !append_assoc. reflexivity.
Qed.

Lemma of_pyobj_envelope (code : Z) (message : string) :
  of_pyobj (error_envelope code message) = envelope_value code message.
Proof. reflexivity. Qed.

Lemma parse_envelope (code : Z) (message : string) (f : nat) :
  code = 404 \/ code = 451 ->
  parse_value (6 + f) (envelope_layout code message)
  = Some (envelope_value code message, chr newline).
Proof.
  intros [-> | ->]; unfold envelope_layout.
  - change (decimal 404) with "404".
    unfold quote at 4. simpl String.append.
    rewrite append_assoc. simpl String.append.
    simpl parse_value. rewrite scan_escape. reflexivity.
  - change (decimal 451) with "451".
    unfold quote at 4. simpl String.append.
    rewrite append_assoc. simpl String.append.
    simpl parse_value. rewrite scan_escape. reflexivity.
Qed.

(** The error document reads back as an object with the one key
    [error], holding an object with the keys [code] (an integer) and
    [message] (a text), for any message. *)
Lemma loads_envelope (code : Z) (message : string) :
  code = 404 \/ code = 451 ->
  loads (envelope_layout code message) = Some (envelope_value code message).
Proof.
  intros Hcode. unfold loads, loads_fuel.
  assert (exists f, String.length (envelope_layout code message) = (5 + f)%nat)
    as [f Hf].
  { unfold envelope_layout. simpl. eexists. reflexivity. }
  rewrite Hf. change (S (5 + f)) with (6 + f)%nat.
  rewrite parse_envelope by assumption. reflexivity.
Qed.

End Envelope.

(* ===================================================================== *)
(** ** Properties of the catalog read *)
(* ===================================================================== *)

Lemma after_get_surveys_memo (w : World) :
  surveys_memo (after_get_surveys w) = Some (current_surveys w).
Proof.
  unfold after_get_surveys, current_surveys.
  destruct (surveys_memo w) eqn:Hm; [exact Hm | reflexivity].
Qed.

Lemma after_get_surveys_current (w : World) :
  current_surveys (after_get_surveys w) = current_surveys w.
Proof.
  unfold current_surveys at 1. now rewrite after_get_surveys_memo.
Qed.

Lemma after_get_surveys_response (w : World) :
  response (after_get_surveys w) = response w.
Proof. unfold after_get_surveys. destruct (surveys_memo w); reflexivity. Qed.

Lemma after_get_surveys_clock (w : World) :
  clock (after_get_surveys w) = clock w.
Proof. unfold after_get_surveys. destruct (surveys_memo w); reflexivity. Qed.

Lemma after_get_surveys_idem (w : World) :
  after_get_surveys (after_get_surveys w) = after_get_surveys w.
Proof.
  unfold after_get_surveys at 1. now rewrite after_get_surveys_memo.
Qed.

Lemma after_get_surveys_executed (w : World) :
  executed (after_get_surveys w) = executed w ++ catalog_statements w.
Proof.
  unfold after_get_surveys, catalog_statements.
  destruct (surveys_memo w); simpl.
  - now rewrite app_nil_r.
  - now rewrite <- !app_assoc.
Qed.

Lemma catalog_statements_no_insert (w : World) :
  ~ In InsertResponse (catalog_statements w).
Proof.
  unfold catalog_statements. destruct (surveys_memo w); simpl; intuition congruence.
Qed.

(** The router never fails, and an action holds no separator. *)
Lemma partition_left_clean (c : ascii) (s l r : string) :
  Text.partition c s = Some (l, r) -> Text.occurs c l = false.
Proof.
  revert l r. induction s as [|a s IH]; intros l r; simpl; [discriminate|].
  destruct (Ascii.eqb a c) eqn:Hac.
  - intros [= <- <-]. reflexivity.
  - destruct (Text.partition c s) as [[l' r']|]; [|discriminate].
    intros [= <- <-]. simpl. rewrite Hac. simpl. eapply IH. reflexivity.
Qed.

Lemma partition_none_clean (c : ascii) (s : string) :
  Text.partition c s = None -> Text.occurs c s = false.
Proof.
  induction s as [|a s IH]; simpl; [reflexivity|].
  destruct (Ascii.eqb a c); [discriminate|].
  destruct (Text.partition c s) as [[l' r']|]; [discriminate|].
  intros _. simpl. now apply IH.
Qed.

Lemma action_of_clean (p : string) :
  Text.occurs Text.slash (action_of p) = false.
Proof.
  unfold action_of.
  destruct (Text.partition Text.slash (Text.strip Text.slash p)) as [[l r]|] eqn:Hp.
  - eapply partition_left_clean. exact Hp.
  - now apply partition_none_clean.
Qed.

Example action_of_root : action_of "/" = "".
Proof. reflexivity. Qed.

Example action_of_nested : action_of "/favorite/2022/x/" = "favorite".
Proof. reflexivity. Qed.

(** A text contains what it ends with. *)
Lemma prefix_refl (s : string) : String.prefix s s = true.
Proof.
  induction s as [|c s IH]; [reflexivity|].
  simpl. destruct (ascii_dec c c); [exact IH | congruence].
Qed.

Lemma contains_refl (s : string) : Text.contains s s = true.
Proof.
  destruct s as [|c s]; [reflexivity|].
  cbn [Text.contains]. now rewrite prefix_refl.
Qed.

Lemma contains_suffix (p s : string) : Text.contains s (p +:+ s) = true.
Proof.
  induction p as [|c p IH]; [apply contains_refl|].
  cbn [String.append]. cbn [Text.contains]. rewrite IH. apply orb_true_r.
Qed.

(* ===================================================================== *)
(** ** The handler: client gate, routing, rendering *)
(* ===================================================================== *)

(** Case analysis along the branches of the handler. *)
Ltac handler_cases :=
  rewrite app_eval; unfold app_outcome;
  repeat match goal with
    | |- context [match ?x !! ?k with _ => _ end] => destruct (x !! k) eqn:?
    | |- context [if ?b then _ else _] => destruct b eqn:?
    end.

(** A client that is present and not allowed is answered 451 with the
    fixed message, whatever the path, the verb and the body; nothing is
    written. *)
Lemma disallowed_client_451 (scope : Scope) (proto : Proto) (w : World) (a : string) :
  headers scope !! "user-agent" = Some a ->
  allowed a = false ->
  app scope proto w = (Ok (error_response 451 rejection), after_get_surveys w).
Proof.
  intros Ha Hno. rewrite app_eval. unfold app_outcome. now rewrite Ha, Hno.
Qed.

(** Without the header the handler stops with an exception, at the
    attribute access on [None], after the catalog read. *)
Lemma no_user_agent_raises (scope : Scope) (proto : Proto) (w : World) :
  headers scope !! "user-agent" = None ->
  app scope proto w = (Raise AttributeError, after_get_surveys w).
Proof.
  intros Ha. rewrite app_eval. unfold app_outcome. now rewrite Ha.
Qed.

(** The handler stops with an exception in two cases only: no
    user-agent header, or a body to submit that is not UTF-8. *)
Lemma app_raises (scope : Scope) (proto : Proto) (w w' : World) (e : Exn) :
  app scope proto w = (Raise e, w') ->
  (headers scope !! "user-agent" = None /\ e = AttributeError) \/
  (method scope = "POST" /\ Text.utf8_valid (received proto) = false /\
   e = UnicodeDecodeError).
Proof.
  handler_cases; intros [= <- <-]; auto.
  right. repeat split; auto. now apply String.eqb_eq.
Qed.

Lemma app_completes (scope : Scope) (proto : Proto) (w : World) (a : string) :
  headers scope !! "user-agent" = Some a ->
  method scope <> "POST" \/ Text.utf8_valid (received proto) = true ->
  exists r w', app scope proto w = (Ok r, w').
Proof.
  intros Ha Hbody.
  destruct (app scope proto w) as [[r|e] w'] eqn:Happ; [eauto|].
  apply app_raises in Happ as [[Hnone _] | (Hpost & Hbad & _)].
  - congruence.
  - destruct Hbody; congruence.
Qed.

(** The gate as the code has it: a request whose user-agent header is
    present and does not start with the prefix, case folded, gets status
    451 and the fixed rejection message inside the error document,
    whatever its path and verb. *)
Lemma disallowed_client_rejected
  (scope : Scope) (proto : Proto) (w : World) (a : string) :
  headers scope !! "user-agent" = Some a ->
  Text.startswith (Text.casefold a) "python" = false ->
  exists r w',
    app scope proto w = (Ok r, w') /\
    status r = 451 /\
    Json.loads (body r) = Some (envelope_value 451 "Try using a Python HTTP client").
Proof.
  intros Ha Hno. eexists _, _. split; [now apply disallowed_client_451 with (a := a)|].
  split; [reflexivity|]. reflexivity.
Qed.

(** C2: a request without user-agent header is not answered 451: the
    handler raises AttributeError and renders no response. *)
Theorem missing_user_agent_not_rejected :
  fst (app (request "GET" "/favorite" None) (sending "") fresh_world)
  = Raise AttributeError.
Proof. now rewrite no_user_agent_raises. Qed.

(** C10: whenever the handler renders a response, its status is 200, 404
    or 451 and its headers are the single content-type application/json. *)
Theorem status_and_content_type
  (scope : Scope) (proto : Proto) (w w' : World) (r : Response) :
  app scope proto w = (Ok r, w') ->
  (status r = 200 \/ status r = 404 \/ status r = 451) /\
  response_headers r = [("content-type", "application/json")].
Proof.
  handler_cases; intros [= <- <-]; simpl; auto.
Qed.

Lemma status_and_content_type_witness :
  app (request "GET" "/unknown" (Some "python-requests/2.28")) (sending "") fresh_world
  = (Ok (error_response 404 (not_found "unknown")), after_get_surveys fresh_world)
  /\ ((status (error_response 404 (not_found "unknown")) = 200
       \/ status (error_response 404 (not_found "unknown")) = 404
       \/ status (error_response 404 (not_found "unknown")) = 451)
      /\ response_headers (error_response 404 (not_found "unknown"))
         = [("content-type", "application/json")]).
Proof.
  assert (H : app (request "GET" "/unknown" (Some "python-requests/2.28"))
                (sending "") fresh_world
              = (Ok (error_response 404 (not_found "unknown")),
                 after_get_surveys fresh_world))
    by (vm_compute; reflexivity).
  split; [exact H|].
  exact (status_and_content_type _ _ _ _ _ H).
Defined.

(** What the two reads of the handler return. *)
Lemma catalog_is (w : World) (surveys : gmap string SurveyInfo) :
  fst (get_surveys w) = Ok surveys -> surveys = current_surveys w.
Proof. rewrite get_surveys_eval. now intros [= <-]. Qed.

Lemma action_is (p : string) (w : World) (action : string) :
  fst (get_action p w) = Ok action -> action = action_of p.
Proof. rewrite get_action_eval. now intros [= <-]. Qed.

(** The handler past the two checks. *)
Lemma app_accepted (scope : Scope) (proto : Proto) (w : World) (a : string) :
  headers scope !! "user-agent" = Some a ->
  allowed a = true ->
  is_Some (current_surveys w !! action_of (path scope)) ->
  app scope proto w =
    let w0 := after_get_surveys w in
    if String.eqb (method scope) "POST" then
      if Text.utf8_valid (received proto) then
        (Ok (ok_response (submitted (received proto))),
         inserted (action_of (path scope)) (received proto) a w0)
      else (Raise UnicodeDecodeError, w0)
    else if String.eqb (method scope) "GET" then
      (Ok (ok_response (Json.json_group_array (map data (response w0)))),
       selected w0)
    else (Ok (ok_response empty_literal), w0).
Proof.
  intros Ha Hok Hin. rewrite app_eval. unfold app_outcome.
  rewrite Ha, Hok. rewrite bool_decide_true by assumption. reflexivity.
Qed.

(** C5: a GET or POST request of an allowed client whose action is not a
    key of the catalog gets status 404, and the message of its error
    document is "Could not find any survey called " followed by the
    action, which the message therefore contains. *)
Theorem unknown_survey_404
  (scope : Scope) (proto : Proto) (w : World) (a : string)
  (surveys : gmap string SurveyInfo) (action : string) :
  method scope = "GET" \/ method scope = "POST" ->
  headers scope !! "user-agent" = Some a ->
  Text.startswith (Text.casefold a) "python" = true ->
  fst (get_surveys w) = Ok surveys ->
  fst (get_action (path scope) w) = Ok action ->
  surveys !! action = None ->
  exists r w' message,
    app scope proto w = (Ok r, w') /\
    status r = 404 /\
    Json.loads (body r) = Some (envelope_value 404 message) /\
    message = "Could not find any survey called " +:+ action /\
    Text.contains action message = true.
Proof.
  intros _ Ha Hok Hs Hact Hnone.
  apply catalog_is in Hs. apply action_is in Hact. subst surveys action.
  exists (error_response 404 (not_found (action_of (path scope)))),
         (after_get_surveys w), (not_found (action_of (path scope))).
  split.
  { rewrite app_eval. unfold app_outcome, allowed. rewrite Ha, Hok, Hnone.
    reflexivity. }
  split; [reflexivity|].
  split.
  { unfold error_response. cbn [body]. rewrite dumps_envelope.
    apply loads_envelope. now left. }
  split; [reflexivity|].
  apply contains_suffix.
Qed.

Lemma unknown_survey_404_witness :
  exists r w' message,
    app (request "GET" "/" (Some "Python-urllib/3.11")) (sending "") fresh_world
    = (Ok r, w') /\
    status r = 404 /\
    Json.loads (body r) = Some (envelope_value 404 message) /\
    message = "Could not find any survey called " +:+ "" /\
    Text.contains "" message = true.
Proof.
  apply (unknown_survey_404
           (request "GET" "/" (Some "Python-urllib/3.11")) (sending "") fresh_world
           "Python-urllib/3.11"
           (json_group_object (dbinit_surveys 1669000000 1669975200)) "").
  - left. reflexivity.
  - vm_compute. reflexivity.
  - reflexivity.
  - reflexivity.
  - reflexivity.
  - vm_compute. reflexivity.
Defined.

(** C6: a response whose status is not 200 has as body the error
    document laid out with two spaces per level and a final newline, and
    the body reads back as an object with the single key error, whose
    value is an object with exactly the keys code, an integer (the
    status), and message, a text. *)
Theorem error_envelope_shape
  (scope : Scope) (proto : Proto) (w w' : World) (r : Response) :
  app scope proto w = (Ok r, w') ->
  status r <> 200 ->
  exists message,
    body r = envelope_layout (status r) message /\
    Json.loads (body r)
    = Some (Json.Obj [("error", Json.Obj [("code", Json.Int (status r));
                                          ("message", Json.Str message)])]).
Proof.
  handler_cases; intros [= <- <-] Hne; cbn [status ok_response] in Hne;
    try congruence;
    eexists; cbn [status body error_response]; rewrite dumps_envelope;
    (split; [reflexivity | apply loads_envelope; auto]).
Qed.

Lemma error_envelope_shape_witness :
  exists message,
    body (error_response 451 rejection) = envelope_layout 451 message /\
    Json.loads (body (error_response 451 rejection))
    = Some (Json.Obj [("error", Json.Obj [("code", Json.Int 451);
                                          ("message", Json.Str message)])]).
Proof.
  apply (error_envelope_shape
           (request "DELETE" "/task" (Some "curl/8.0")) (sending "") fresh_world
           (after_get_surveys fresh_world) (error_response 451 rejection)).
  - vm_compute. reflexivity.
  - discriminate.
Defined.

(** C9: for an allowed client and an action of the catalog, a verb that
    is neither POST nor GET gets status 200 and the body made of two
    quote characters, the empty JSON string; no row is written and no
    INSERT is sent. *)
Theorem other_verb_placeholder
  (scope : Scope) (proto : Proto) (w : World) (a : string)
  (surveys : gmap string SurveyInfo) (action : string) :
  headers scope !! "user-agent" = Some a ->
  Text.startswith (Text.casefold a) "python" = true ->
  fst (get_surveys w) = Ok surveys ->
  fst (get_action (path scope) w) = Ok action ->
  is_Some (surveys !! action) ->
  method scope <> "POST" ->
  method scope <> "GET" ->
  exists r w' sent,
    app scope proto w = (Ok r, w') /\
    status r = 200 /\
    body r = String Text.dquote (String Text.dquote EmptyString) /\
    Json.loads (body r) = Some (Json.Str EmptyString) /\
    response w' = response w /\
    executed w' = executed w ++ sent /\
    ~ In InsertResponse sent.
Proof.
  intros Ha Hok Hs Hact Hin Hpost Hget.
  apply catalog_is in Hs. apply action_is in Hact. subst surveys action.
  exists (ok_response empty_literal), (after_get_surveys w), (catalog_statements w).
  split.
  { rewrite (app_accepted scope proto w a Ha Hok Hin). cbv zeta.
    apply String.eqb_neq in Hpost, Hget. now rewrite Hpost, Hget. }
  repeat split.
  - apply after_get_surveys_response.
  - apply after_get_surveys_executed.
  - apply catalog_statements_no_insert.
Qed.

Lemma other_verb_placeholder_witness :
  exists r w' sent,
    app (request "PUT" "/task/1" (Some "python-httpx/0.23")) (sending "x") fresh_world
    = (Ok r, w') /\
    status r = 200 /\
    body r = String Text.dquote (String Text.dquote EmptyString) /\
    Json.loads (body r) = Some (Json.Str EmptyString) /\
    response w' = response fresh_world /\
    executed w' = executed fresh_world ++ sent /\
    ~ In InsertResponse sent.
Proof.
  apply (other_verb_placeholder
           (request "PUT" "/task/1" (Some "python-httpx/0.23")) (sending "x")
           fresh_world "python-httpx/0.23"
           (json_group_object (dbinit_surveys 1669000000 1669975200)) "task").
  - vm_compute. reflexivity.
  - reflexivity.
  - reflexivity.
  - reflexivity.
  - vm_compute. eexists. reflexivity.
  - discriminate.
  - discriminate.
Defined.

(* ===================================================================== *)
(** ** Retrieval *)
(* ===================================================================== *)

(** C4: a GET request of an allowed client for an action of the catalog
    gets status 200 and, as body, the JSON array of the data of every row
    of table response, whatever the title of the row; with no row at all
    the body is the empty array. *)
Theorem retrieve_all_answers
  (scope : Scope) (proto : Proto) (w : World) (a : string)
  (surveys : gmap string SurveyInfo) (action : string) :
  method scope = "GET" ->
  headers scope !! "user-agent" = Some a ->
  Text.startswith (Text.casefold a) "python" = true ->
  fst (get_surveys w) = Ok surveys ->
  fst (get_action (path scope) w) = Ok action ->
  is_Some (surveys !! action) ->
  exists r w',
    app scope proto w = (Ok r, w') /\
    status r = 200 /\
    body r = Json.json_group_array (map data (response w)) /\
    Json.loads (body r) = Some (Json.Arr (map Json.Str (map data (response w)))) /\
    (forall row, In row (response w) ->
                 In (Json.Str (data row)) (map Json.Str (map data (response w)))) /\
    (response w = [] -> body r = "[]").
Proof.
  intros Hget Ha Hok Hs Hact Hin.
  apply catalog_is in Hs. apply action_is in Hact. subst surveys action.
  eexists _, _. split.
  { rewrite (app_accepted scope proto w a Ha Hok Hin). cbv zeta.
    rewrite Hget. cbn [String.eqb Ascii.eqb Bool.eqb]. reflexivity. }
  cbn [status body ok_response]. rewrite after_get_surveys_response.
  split; [reflexivity|]. split; [reflexivity|].
  split; [apply loads_group_array|].
  split.
  - intros row Hrow. apply in_map. apply in_map. exact Hrow.
  - intros ->. reflexivity.
Qed.

Lemma retrieve_all_answers_witness :
  exists r w',
    app (request "GET" "/automation" (Some "Python-urllib/3.11")) (sending "") busy_world
    = (Ok r, w') /\
    status r = 200 /\
    body r = Json.json_group_array (map data (response busy_world)) /\
    Json.loads (body r)
    = Some (Json.Arr (map Json.Str (map data (response busy_world)))) /\
    (forall row, In row (response busy_world) ->
                 In (Json.Str (data row))
                    (map Json.Str (map data (response busy_world)))) /\
    (response busy_world = [] -> body r = "[]").
Proof.
  apply (retrieve_all_answers
           (request "GET" "/automation" (Some "Python-urllib/3.11")) (sending "")
           busy_world "Python-urllib/3.11"
           (json_group_object (dbinit_surveys 1669000000 1669975200)) "automation").
  - reflexivity.
  - vm_compute. reflexivity.
  - reflexivity.
  - reflexivity.
  - reflexivity.
  - vm_compute. eexists. reflexivity.
Defined.

(** The answers to other surveys are part of the reply. *)
Example retrieve_unscoped :
  fst (app (request "GET" "/automation" (Some "Python-urllib/3.11")) (sending "")
         busy_world)
  = Ok (ok_response
          ("[" +:+ Json.quote "Garter snake" +:+ "," +:+ Json.quote "Backups" +:+ "]")).
Proof. vm_compute. reflexivity. Qed.

(* ===================================================================== *)
(** ** Submission *)
(* ===================================================================== *)

Lemma inserted_response (t d a : string) (w : World) :
  response (inserted t d a w)
  = response w ++ [{| title := t; created := clock w; data := d; agent := a |}].
Proof. reflexivity. Qed.

Lemma inserted_clock (t d a : string) (w : World) :
  clock (inserted t d a w) = clock w.
Proof. reflexivity. Qed.

Lemma inserted_current (t d a : string) (w : World) :
  current_surveys (inserted t d a w) = current_surveys w.
Proof. reflexivity. Qed.

(** A POST of an allowed client for an action of the catalog, with a body
    that decodes: one row is appended, and the reply is the sentence with
    the answer put in as it came. *)
Lemma app_submit (scope : Scope) (w : World) (a answer : string) :
  method scope = "POST" ->
  headers scope !! "user-agent" = Some a ->
  allowed a = true ->
  is_Some (current_surveys w !! action_of (path scope)) ->
  Text.utf8_valid answer = true ->
  app scope (sending answer) w
  = (Ok (ok_response (submitted answer)),
     inserted (action_of (path scope)) answer a (after_get_surveys w)).
Proof.
  intros Hm Ha Hok Hin Hv.
  rewrite (app_accepted scope (sending answer) w a Ha Hok Hin). cbv zeta.
  rewrite Hm. cbn [received sending]. rewrite Hv. reflexivity.
Qed.

Lemma repeat_app_submit (scope : Scope) (a answer : string) (n : nat) :
  method scope = "POST" ->
  headers scope !! "user-agent" = Some a ->
  allowed a = true ->
  Text.utf8_valid answer = true ->
  forall w : World,
    is_Some (current_surveys w !! action_of (path scope)) ->
    fst (repeat_app n scope (sending answer) w)
    = replicate n (Ok (ok_response (submitted answer))) /\
    response (snd (repeat_app n scope (sending answer) w))
    = response w ++
      replicate n {| title := action_of (path scope); created := clock w;
                     data := answer; agent := a |}.
Proof.
  intros Hm Ha Hok Hv. induction n as [|n IH]; intros w Hin.
  - simpl. now rewrite app_nil_r.
  - cbn [repeat_app]. rewrite (app_submit scope w a answer Hm Ha Hok Hin Hv).
    set (w1 := inserted _ _ _ _).
    destruct (IH w1) as [Hrs Hrows].
    { unfold w1. now rewrite inserted_current, after_get_surveys_current. }
    destruct (repeat_app n scope (sending answer) w1) as [rs w2].
    cbn [fst snd] in *. split; [now rewrite Hrs|].
    rewrite Hrows. unfold w1.
    rewrite inserted_response, inserted_clock, after_get_surveys_response,
      after_get_surveys_clock.
    now rewrite <- app_assoc.
Qed.

(** C8: a POST of an allowed client for a survey of the catalog appends
    one row holding the survey, the answer and the client; the same POST
    sent n times is answered 200 each time and leaves n rows more. *)
Theorem submit_not_idempotent
  (scope : Scope) (w : World) (a answer : string)
  (surveys : gmap string SurveyInfo) (action : string) (n : nat) :
  method scope = "POST" ->
  headers scope !! "user-agent" = Some a ->
  Text.startswith (Text.casefold a) "python" = true ->
  fst (get_surveys w) = Ok surveys ->
  fst (get_action (path scope) w) = Ok action ->
  is_Some (surveys !! action) ->
  Text.utf8_valid answer = true ->
  (exists r w',
      app scope (sending answer) w = (Ok r, w') /\
      status r = 200 /\
      response w' = response w ++ [{| title := action; created := clock w;
                                      data := answer; agent := a |}]) /\
  Forall (fun o => exists r, o = Ok r /\ status r = 200)
         (fst (repeat_app n scope (sending answer) w)) /\
  length (fst (repeat_app n scope (sending answer) w)) = n /\
  length (response (snd (repeat_app n scope (sending answer) w)))
  = (length (response w) + n)%nat.
Proof.
  intros Hm Ha Hok Hs Hact Hin Hv.
  apply catalog_is in Hs. apply action_is in Hact. subst surveys action.
  split.
  { eexists _, _. split; [apply (app_submit scope w a answer Hm Ha Hok Hin Hv)|].
    split; [reflexivity|].
    now rewrite inserted_response, after_get_surveys_response,
      after_get_surveys_clock. }
  destruct (repeat_app_submit scope a answer n Hm Ha Hok Hv w Hin) as [Hrs Hrows].
  rewrite Hrs, Hrows. split; [|split].
  - apply Forall_forall. intros o Ho.
    apply elem_of_replicate in Ho as [-> _]. eexists. split; reflexivity.
  - apply length_replicate.
  - now rewrite length_app, length_replicate.
Qed.

Lemma submit_not_idempotent_witness :
  (exists r w',
      app (request "POST" "/favorite" (Some "Python-urllib/3.11"))
        (sending "Garter snake") fresh_world = (Ok r, w') /\
      status r = 200 /\
      response w'
      = response fresh_world ++
        [{| title := "favorite"; created := clock fresh_world;
            data := "Garter snake"; agent := "Python-urllib/3.11" |}]) /\
  Forall (fun o => exists r, o = Ok r /\ status r = 200)
         (fst (repeat_app 3 (request "POST" "/favorite" (Some "Python-urllib/3.11"))
                 (sending "Garter snake") fresh_world)) /\
  length (fst (repeat_app 3 (request "POST" "/favorite" (Some "Python-urllib/3.11"))
                 (sending "Garter snake") fresh_world)) = 3%nat /\
  length (response (snd (repeat_app 3
                           (request "POST" "/favorite" (Some "Python-urllib/3.11"))
                           (sending "Garter snake") fresh_world)))
  = (length (response fresh_world) + 3)%nat.
Proof.
  apply (submit_not_idempotent
           (request "POST" "/favorite" (Some "Python-urllib/3.11")) fresh_world
           "Python-urllib/3.11" "Garter snake"
           (json_group_object (dbinit_surveys 1669000000 1669975200)) "favorite" 3).
  - reflexivity.
  - vm_compute. reflexivity.
  - reflexivity.
  - reflexivity.
  - reflexivity.
  - vm_compute. eexists. reflexivity.
  - reflexivity.
Defined.

(** A GET of an allowed client for an action of the catalog. *)
Lemma app_retrieve (scope : Scope) (proto : Proto) (w : World) (a : string) :
  method scope = "GET" ->
  headers scope !! "user-agent" = Some a ->
  allowed a = true ->
  is_Some (current_surveys w !! action_of (path scope)) ->
  app scope proto w
  = (Ok (ok_response (Json.json_group_array (map data (response w)))),
     selected (after_get_surveys w)).
Proof.
  intros Hm Ha Hok Hin.
  rewrite (app_accepted scope proto w a Ha Hok Hin). cbv zeta.
  rewrite Hm. cbn [String.eqb Ascii.eqb Bool.eqb].
  now rewrite after_get_surveys_response.
Qed.

(** The handler never removes a row and never changes the catalog of the
    process, whatever the request and its outcome. *)
Lemma app_keeps_rows (scope : Scope) (proto : Proto) (w : World) :
  exists extra, response (snd (app scope proto w)) = response w ++ extra.
Proof.
  handler_cases; cbn [snd];
    rewrite ?inserted_response; unfold selected; cbn [response log_statement opened];
    rewrite after_get_surveys_response;
    first [ now (exists []; rewrite app_nil_r) | eexists; reflexivity ].
Qed.

Lemma app_keeps_surveys (scope : Scope) (proto : Proto) (w : World) :
  current_surveys (snd (app scope proto w)) = current_surveys w.
Proof.
  handler_cases; cbn [snd]; rewrite ?inserted_current;
    try apply after_get_surveys_current;
    exact (after_get_surveys_current w).
Qed.

Lemma serve_all_keeps (reqs : list (Scope * Proto)) :
  forall w : World,
    current_surveys (serve_all reqs w) = current_surveys w /\
    exists extra, response (serve_all reqs w) = response w ++ extra.
Proof.
  induction reqs as [|[scope proto] reqs IH]; intros w.
  - split; [reflexivity|]. exists []. now rewrite app_nil_r.
  - cbn [serve_all fold_left]. fold (serve_all reqs (serve w (scope, proto))).
    destruct (IH (serve w (scope, proto))) as [Hs [extra Hr]].
    unfold serve in *. cbn [fst snd] in *.
    destruct (app_keeps_rows scope proto w) as [extra0 Hr0].
    split; [now rewrite Hs, app_keeps_surveys|].
    exists (extra0 ++ extra). now rewrite Hr, Hr0, <- app_assoc.
Qed.

(** C3: after a POST of answer A for a survey of the catalog, a GET for
    any survey of the catalog, both by allowed clients, returns a JSON
    array that has the text A among its elements; this holds right after
    the POST and after any requests served in between. *)
Theorem submit_then_retrieve
  (post get : Scope) (proto : Proto) (w : World) (a1 a2 answer : string)
  (surveys : gmap string SurveyInfo) (s1 s2 : string)
  (between : list (Scope * Proto)) :
  method post = "POST" ->
  headers post !! "user-agent" = Some a1 ->
  Text.startswith (Text.casefold a1) "python" = true ->
  method get = "GET" ->
  headers get !! "user-agent" = Some a2 ->
  Text.startswith (Text.casefold a2) "python" = true ->
  fst (get_surveys w) = Ok surveys ->
  fst (get_action (path post) w) = Ok s1 ->
  is_Some (surveys !! s1) ->
  fst (get_action (path get) w) = Ok s2 ->
  is_Some (surveys !! s2) ->
  Text.utf8_valid answer = true ->
  exists r1 w1 r2 w2 elements,
    app post (sending answer) w = (Ok r1, w1) /\
    status r1 = 200 /\
    app get proto (serve_all between w1) = (Ok r2, w2) /\
    status r2 = 200 /\
    Json.loads (body r2) = Some (Json.Arr elements) /\
    In (Json.Str answer) elements.
Proof.
  intros Hm1 Ha1 Hok1 Hm2 Ha2 Hok2 Hs Hact1 Hin1 Hact2 Hin2 Hv.
  apply catalog_is in Hs. apply action_is in Hact1, Hact2. subst surveys s1 s2.
  set (w1 := inserted (action_of (path post)) answer a1 (after_get_surveys w)).
  destruct (serve_all_keeps between w1) as [Hcat [extra Hrows]].
  set (w1' := serve_all between w1) in *.
  assert (Hin2' : is_Some (current_surveys w1' !! action_of (path get))).
  { rewrite Hcat. unfold w1.
    now rewrite inserted_current, after_get_surveys_current. }
  exists (ok_response (submitted answer)), w1,
         (ok_response (Json.json_group_array (map data (response w1')))),
         (selected (after_get_surveys w1')),
         (map Json.Str (map data (response w1'))).
  split; [apply (app_submit post w a1 answer Hm1 Ha1 Hok1 Hin1 Hv)|].
  split; [reflexivity|].
  split; [apply (app_retrieve get proto w1' a2 Hm2 Ha2 Hok2 Hin2')|].
  split; [reflexivity|].
  split; [apply loads_group_array|].
  rewrite Hrows. unfold w1. rewrite inserted_response, !map_app. cbn [map data].
  apply in_or_app. left. apply in_or_app. right. now left.
Qed.

Lemma submit_then_retrieve_witness :
  exists r1 w1 r2 w2 elements,
    app (request "POST" "/favorite" (Some "Python-urllib/3.11"))
      (sending "Garter snake") fresh_world = (Ok r1, w1) /\
    status r1 = 200 /\
    app (request "GET" "/favorite" (Some "Python-urllib/3.11")) (sending "")
      (serve_all
         [(request "GET" "/nothing" (Some "curl/8.0"), sending "");
          (request "POST" "/task" (Some "python-requests/2.28"), sending "Backups")]
         w1)
    = (Ok r2, w2) /\
    status r2 = 200 /\
    Json.loads (body r2) = Some (Json.Arr elements) /\
    In (Json.Str "Garter snake") elements.
Proof.
  apply (submit_then_retrieve
           (request "POST" "/favorite" (Some "Python-urllib/3.11"))
           (request "GET" "/favorite" (Some "Python-urllib/3.11"))
           (sending "") fresh_world
           "Python-urllib/3.11" "Python-urllib/3.11" "Garter snake"
           (json_group_object (dbinit_surveys 1669000000 1669975200))
           "favorite" "favorite").
  - reflexivity.
  - vm_compute. reflexivity.
  - reflexivity.
  - reflexivity.
  - vm_compute. reflexivity.
  - reflexivity.
  - reflexivity.
  - reflexivity.
  - vm_compute. eexists. reflexivity.
  - reflexivity.
  - vm_compute. eexists. reflexivity.
  - reflexivity.
Defined.

(** The example of the specification, with a submission to another survey
    in between. *)
Example garter_snake_round_trip :
  fst (app (request "GET" "/favorite" (Some "Python-urllib/3.11")) (sending "")
         (serve_all
            [(request "POST" "/favorite" (Some "Python-urllib/3.11"),
              sending "Garter snake");
             (request "POST" "/task" (Some "python-requests/2.28"),
              sending "Backups")]
            fresh_world))
  = Ok (ok_response
          ("[" +:+ Json.quote "Garter snake" +:+ "," +:+ Json.quote "Backups" +:+ "]")).
Proof. vm_compute. reflexivity. Qed.

(* ===================================================================== *)
(** ** The memo of the catalog *)
(* ===================================================================== *)

(** C7: once get_surveys has returned, every call made while the memo
    of the process is what that call left returns the same mapping,
    whatever the tables hold by then, and leaves the world as it found
    it: no statement is sent. *)
Theorem get_surveys_memoized (w w2 : World) :
  surveys_memo w2 = surveys_memo (snd (get_surveys w)) ->
  exists m,
    fst (get_surveys w) = Ok m /\
    get_surveys w2 = (Ok m, w2) /\
    executed (snd (get_surveys w2)) = executed w2.
Proof.
  rewrite (get_surveys_eval w). cbn [fst snd].
  rewrite after_get_surveys_memo. intros Hmemo.
  exists (current_surveys w). split; [reflexivity|].
  assert (Hw2 : get_surveys w2 = (Ok (current_surveys w), w2)).
  { rewrite get_surveys_eval. unfold current_surveys at 1, after_get_surveys.
    now rewrite Hmemo. }
  now rewrite Hw2.
Qed.

Lemma get_surveys_memoized_witness :
  exists m,
    fst (get_surveys fresh_world) = Ok m /\
    get_surveys changed_world = (Ok m, changed_world) /\
    executed (snd (get_surveys changed_world)) = executed changed_world.
Proof.
  apply (get_surveys_memoized fresh_world changed_world).
  reflexivity.
Defined.

Example changed_world_differs :
  json_group_object (survey changed_world) !! "favorite" = None /\
  fst (get_surveys changed_world)
  = Ok (json_group_object (dbinit_surveys 1669000000 1669975200)).
Proof. split; vm_compute; reflexivity. Qed.

(* ===================================================================== *)
(** ** The reply to a submission as a JSON document *)
(* ===================================================================== *)

Section SubmitReply.
Import Text Json.

Lemma append_empty_r (s : string) : s +:+ EmptyString = s.
Proof. induction s as [|c s IH]; simpl; [reflexivity | now rewrite IH]. Qed.

Lemma escape_append (a b : string) : escape (a +:+ b) = escape a +:+ escape b.
Proof.
  induction a as [|c a IH]; [reflexivity|].
  cbn [String.append escape]. now rewrite IH, append_assoc.
Qed.

Lemma loads_quote (s : string) : loads (quote s) = Some (Str s).
Proof.
  unfold loads, loads_fuel.
  rewrite <- (append_empty_r (quote s)) at 2.
  now rewrite parse_quote.
Qed.

(** When nothing in the answer needs an escape, the reply is the JSON
    literal of the sentence. *)
Lemma submitted_plain (answer : string) :
  escape answer = answer ->
  submitted answer = quote (submitted_sentence answer) /\
  loads (submitted answer) = Some (Str (submitted_sentence answer)).
Proof.
  intros Hplain.
  assert (H : submitted answer = quote (submitted_sentence answer)).
  { unfold submitted, submitted_sentence, quote.
    rewrite !escape_append, Hplain. simpl. rewrite !append_assoc. reflexivity. }
  split; [exact H|]. rewrite H. apply loads_quote.
Qed.

End SubmitReply.

(** The example of the specification: POST /favorite with body
    Garter snake. *)
Example submit_garter_snake :
  fst (app (request "POST" "/favorite" (Some "Python-urllib/3.11"))
         (sending "Garter snake") fresh_world)
  = Ok (ok_response (Json.quote (submitted_sentence "Garter snake"))).
Proof. vm_compute. reflexivity. Qed.

(** C1: for the answer [say "hi"] the handler responds 200 with the
    sentence around the answer as it came, its quotes not escaped; that
    body is not a JSON document, with any amount of fuel given to the
    parser: the literal ends at the first quote of the answer and text
    follows it. *)
Theorem submit_reply_unescaped :
  exists r w',
    app (request "POST" "/favorite" (Some "Python-urllib/3.11"))
      (sending quoting_answer) fresh_world = (Ok r, w') /\
    status r = 200 /\
    body r = submitted quoting_answer /\
    body r <> Json.quote (submitted_sentence quoting_answer) /\
    (forall fuel, Json.loads_fuel fuel (body r) = None) /\
    Json.loads (body r) = None.
Proof.
  eexists _, _. split.
  { apply (app_submit (request "POST" "/favorite" (Some "Python-urllib/3.11"))
             fresh_world "Python-urllib/3.11" quoting_answer).
    - reflexivity.
    - vm_compute. reflexivity.
    - reflexivity.
    - vm_compute. eexists. reflexivity.
    - reflexivity. }
  cbn [status body ok_response].
  split; [reflexivity|]. split; [reflexivity|].
  split; [vm_compute; discriminate|].
  split; [|reflexivity].
  intros [|fuel]; reflexivity.
Qed.

(* ===================================================================== *)
(** ** Further properties: the router *)
(* ===================================================================== *)

Section Router.
Import Text.

Lemma eqb_slash_false (a : ascii) : Ascii.eqb a slash = false -> a <> slash.
Proof. intros H ->. now rewrite Ascii.eqb_refl in H. Qed.

Lemma lstrip_only (c : ascii) (pre rest : string) :
  all_chars (fun x => Ascii.eqb x c) pre = true ->
  lstrip c (pre +:+ rest) = lstrip c rest.
Proof.
  induction pre as [|a pre IH]; [reflexivity|].
  cbn [all_chars]. intros [Ha Hpre]%andb_true_iff.
  cbn [String.append lstrip]. rewrite Ha. now apply IH.
Qed.

Lemma lstrip_head (c a : ascii) (s : string) :
  Ascii.eqb a c = false -> lstrip c (String a s) = String a s.
Proof. intros H. cbn [lstrip]. now rewrite H. Qed.

(** What [lstrip] leaves is empty, exactly for a text of [c] only, or
    starts with another character. *)
Lemma lstrip_shape (c : ascii) (s : string) :
  (lstrip c s = EmptyString /\ all_chars (fun x => Ascii.eqb x c) s = true) \/
  (exists a t, lstrip c s = String a t /\ Ascii.eqb a c = false /\
               all_chars (fun x => Ascii.eqb x c) s = false).
Proof.
  induction s as [|a s IH]; [left; split; reflexivity|].
  cbn [lstrip all_chars]. destruct (Ascii.eqb a c) eqn:Ha.
  - exact IH.
  - right. exists a, s. repeat split. exact Ha.
Qed.

Lemma rstrip_cons (c a : ascii) (s : string) :
  Ascii.eqb a c = false -> rstrip c (String a s) = String a (rstrip c s).
Proof.
  intros H. cbn [rstrip]. destruct (rstrip c s); [now rewrite H | reflexivity].
Qed.

Lemma rstrip_clean (c : ascii) (seg t : string) :
  occurs c seg = false -> rstrip c (seg +:+ t) = seg +:+ rstrip c t.
Proof.
  induction seg as [|a seg IH]; [reflexivity|].
  cbn [occurs]. intros [Ha Hseg]%orb_false_iff.
  cbn [String.append]. rewrite rstrip_cons by exact Ha. now rewrite IH.
Qed.

Lemma rstrip_sep (c : ascii) (t : string) :
  rstrip c (String c t) = EmptyString \/
  exists r, rstrip c (String c t) = String c r.
Proof.
  cbn [rstrip]. destruct (rstrip c t).
  - left. now rewrite Ascii.eqb_refl.
  - right. eauto.
Qed.

Lemma partition_clean_end (c : ascii) (seg : string) :
  occurs c seg = false -> partition c seg = None.
Proof.
  induction seg as [|a seg IH]; [reflexivity|].
  cbn [occurs partition]. intros [Ha Hseg]%orb_false_iff.
  now rewrite Ha, IH.
Qed.

Lemma partition_clean_sep (c : ascii) (seg r : string) :
  occurs c seg = false -> partition c (seg +:+ String c r) = Some (seg, r).
Proof.
  induction seg as [|a seg IH].
  - intros _. cbn [String.append partition]. now rewrite Ascii.eqb_refl.
  - cbn [occurs]. intros [Ha Hseg]%orb_false_iff.
    cbn [String.append partition]. now rewrite Ha, IH.
Qed.

(** The action of separators, a segment, and nothing or a separator and
    anything: the segment. *)
Lemma action_of_segment (pre seg tail : string) :
  only_slashes pre = true ->
  seg <> EmptyString ->
  occurs slash seg = false ->
  tail = EmptyString \/ (exists rest, tail = String slash rest) ->
  action_of (pre +:+ seg +:+ tail) = seg.
Proof.
  intros Hpre Hne Hclean Htail. unfold action_of, strip.
  rewrite lstrip_only by exact Hpre.
  destruct seg as [|a seg]; [congruence|].
  pose proof Hclean as Hc. cbn [occurs] in Hc. apply orb_false_iff in Hc as [Ha _].
  cbn [String.append]. rewrite lstrip_head by exact Ha.
  change (String a (seg +:+ tail)) with (String a seg +:+ tail).
  rewrite rstrip_clean by exact Hclean.
  destruct Htail as [-> | [rest ->]].
  - cbn [rstrip]. rewrite append_empty_r.
    now rewrite partition_clean_end.
  - destruct (rstrip_sep slash rest) as [-> | [r ->]].
    + rewrite append_empty_r. now rewrite partition_clean_end.
    + now rewrite partition_clean_sep.
Qed.

(** [String.prefix] and [contains] along concatenation. *)
Lemma prefix_empty (s : string) : String.prefix EmptyString s = true.
Proof. destruct s; reflexivity. Qed.

Lemma prefix_append (a t : string) : String.prefix a (a +:+ t) = true.
Proof.
  induction a as [|c a IH]; [apply prefix_empty|].
  cbn [String.append String.prefix]. destruct (ascii_dec c c); [exact IH | congruence].
Qed.

Lemma contains_prefix (a s : string) :
  String.prefix a s = true -> contains a s = true.
Proof. intros H. destruct s; cbn [contains]; rewrite H; reflexivity. Qed.

Lemma contains_cons (a s : string) (c : ascii) :
  contains a s = true -> contains a (String c s) = true.
Proof. intros H. cbn [contains]. rewrite H. apply orb_true_r. Qed.

Lemma contains_append_l (a p s : string) :
  contains a s = true -> contains a (p +:+ s) = true.
Proof.
  intros H. induction p as [|c p IH]; [exact H|].
  cbn [String.append]. now apply contains_cons.
Qed.

Lemma prefix_append_r (a s t : string) :
  String.prefix a s = true -> String.prefix a (s +:+ t) = true.
Proof.
  revert s. induction a as [|c a IH]; intros s H; [apply prefix_empty|].
  destruct s as [|d s]; [discriminate|].
  cbn [String.append String.prefix] in *.
  destruct (ascii_dec c d); [now apply IH | discriminate].
Qed.

Lemma contains_append_r (a s t : string) :
  contains a s = true -> contains a (s +:+ t) = true.
Proof.
  induction s as [|c s IH].
  - cbn [contains]. rewrite orb_false_r. intros H.
    destruct a; [|discriminate]. apply contains_prefix, prefix_empty.
  - cbn [contains String.append]. intros [H | H]%orb_true_iff.
    + pose proof (prefix_append_r a (String c s) t H) as Hp.
      cbn [String.append] in Hp. now rewrite Hp.
    + rewrite (IH H). apply orb_true_r.
Qed.

Lemma lstrip_suffix (c : ascii) (s : string) :
  exists p, s = p +:+ lstrip c s.
Proof.
  induction s as [|a s [p Hp]]; [now exists EmptyString|].
  cbn [lstrip]. destruct (Ascii.eqb a c).
  - exists (String a p). cbn [String.append]. now rewrite <- Hp.
  - now exists EmptyString.
Qed.

Lemma rstrip_prefix (c : ascii) (s : string) :
  exists t, s = rstrip c s +:+ t.
Proof.
  induction s as [|a s [t Ht]]; [now exists EmptyString|].
  cbn [rstrip]. destruct (rstrip c s) as [|b r] eqn:Hr.
  - destruct (Ascii.eqb a c).
    + now exists (String a s).
    + exists s. reflexivity.
  - exists t. cbn [String.append] in *. now rewrite <- Ht.
Qed.

Lemma partition_split (c : ascii) (s l r : string) :
  partition c s = Some (l, r) -> s = l +:+ String c r.
Proof.
  revert l r. induction s as [|a s IH]; intros l r; cbn [partition]; [discriminate|].
  destruct (Ascii.eqb a c) eqn:Ha.
  - intros [= <- <-]. apply Ascii.eqb_eq in Ha. now subst.
  - destruct (partition c s) as [[l' r']|]; [|discriminate].
    intros [= <- <-]. cbn [String.append]. now rewrite (IH l' r').
Qed.

Lemma action_of_part (p : string) : contains (action_of p) p = true.
Proof.
  unfold action_of, strip.
  destruct (lstrip_suffix slash p) as [pre Hpre].
  destruct (rstrip_prefix slash (lstrip slash p)) as [post Hpost].
  set (core := rstrip slash (lstrip slash p)) in *.
  assert (Hcore : forall a, contains a core = true -> contains a p = true).
  { intros a Ha. rewrite Hpre, Hpost. apply contains_append_l.
    now apply contains_append_r. }
  destruct (partition slash core) as [[l r]|] eqn:Hpart.
  - apply Hcore. apply partition_split in Hpart. rewrite Hpart.
    apply contains_prefix, prefix_append.
  - apply Hcore, contains_refl.
Qed.

End Router.

(** X1: get_action never fails and leaves the world alone; the action
    holds no separator, and it is a piece of the path as it stands: no
    change of case, no decoding. *)
Theorem get_action_piece_of_path (p : string) (w : World) :
  exists action,
    get_action p w = (Ok action, w) /\
    Text.occurs Text.slash action = false /\
    Text.contains action p = true.
Proof.
  exists (action_of p). split; [apply get_action_eval|].
  split; [apply action_of_clean | apply action_of_part].
Qed.

(** X2: after any number of leading separators, the action is the first
    segment; what follows its separator is ignored, and so is the lack of
    anything after it. *)
Theorem get_action_first_segment (pre seg rest : string) (w : World) :
  only_slashes pre = true ->
  seg <> EmptyString ->
  Text.occurs Text.slash seg = false ->
  get_action (pre +:+ seg) w = (Ok seg, w) /\
  get_action (pre +:+ seg +:+ String Text.slash rest) w = (Ok seg, w).
Proof.
  intros Hpre Hne Hclean. rewrite !get_action_eval. split; f_equal; f_equal.
  - rewrite <- (append_empty_r seg) at 1.
    apply action_of_segment; auto.
  - apply action_of_segment; eauto.
Qed.

Lemma get_action_first_segment_witness :
  get_action ("//" +:+ "task") fresh_world = (Ok "task", fresh_world) /\
  get_action ("//" +:+ "task" +:+ String Text.slash "2022/12//") fresh_world
  = (Ok "task", fresh_world).
Proof.
  apply (get_action_first_segment "//" "task" "2022/12//" fresh_world).
  - reflexivity.
  - discriminate.
  - reflexivity.
Defined.

(** X3: the action is empty exactly for the paths made of separators
    only, the empty path among them. *)
Theorem get_action_empty_iff (p : string) (w : World) :
  get_action p w = (Ok EmptyString, w) <-> only_slashes p = true.
Proof.
  rewrite get_action_eval. unfold action_of, Text.strip, only_slashes.
  destruct (lstrip_shape Text.slash p) as [[Hl Hall] | (a & t & Hl & Ha & Hall)];
    rewrite Hl, Hall.
  - split; reflexivity.
  - rewrite rstrip_cons by exact Ha. cbn [Text.partition]. rewrite Ha.
    destruct (Text.partition Text.slash (Text.rstrip Text.slash t)) as [[l r]|];
      split; discriminate.
Qed.

(* ===================================================================== *)
(** ** Further properties: the catalog read from the table *)
(* ===================================================================== *)

Lemma json_group_object_fold (rows : list SurveyRow) :
  forall (m0 : gmap string SurveyInfo) (t : string),
    fold_left
      (fun m r =>
         <[survey_title r := {| question := survey_question r;
                                expiry := survey_expiry r |}]> m)
      rows m0 !! t
    = match last_titled t rows with
      | Some r => Some (info_of r)
      | None => m0 !! t
      end.
Proof.
  induction rows as [|r rows IH]; intros m0 t; [reflexivity|].
  cbn [fold_left last_titled]. rewrite IH.
  destruct (last_titled t rows) as [r'|]; [reflexivity|].
  destruct (String.eqb_spec (survey_title r) t) as [<- | Hne].
  - now rewrite lookup_insert_eq.
  - now rewrite lookup_insert_ne.
Qed.

Lemma json_group_object_lookup (rows : list SurveyRow) (t : string) :
  json_group_object rows !! t = info_of <$> last_titled t rows.
Proof.
  unfold json_group_object. rewrite json_group_object_fold.
  destruct (last_titled t rows); [reflexivity | apply lookup_empty].
Qed.

Lemma last_titled_in (t : string) (rows : list SurveyRow) (r : SurveyRow) :
  last_titled t rows = Some r -> In r rows /\ survey_title r = t.
Proof.
  induction rows as [|x rows IH]; cbn [last_titled]; [discriminate|].
  destruct (last_titled t rows) as [r'|].
  - intros [= ->]. destruct (IH eq_refl). split; [now right | assumption].
  - destruct (String.eqb_spec (survey_title x) t); [|discriminate].
    intros [= ->]. split; [now left | assumption].
Qed.

Lemma last_titled_found (t : string) (rows : list SurveyRow) (r : SurveyRow) :
  In r rows -> survey_title r = t -> is_Some (last_titled t rows).
Proof.
  induction rows as [|x rows IH]; intros Hin Ht; [destruct Hin|].
  cbn [last_titled]. destruct (last_titled t rows) as [r'|] eqn:Hl; [eauto|].
  destruct Hin as [-> | Hin].
  - rewrite Ht, String.eqb_refl. eauto.
  - destruct (IH Hin Ht) as [? [=]].
Qed.

Lemma last_titled_app (t : string) (l1 l2 : list SurveyRow) :
  last_titled t (l1 ++ l2)
  = match last_titled t l2 with
    | Some r => Some r
    | None => last_titled t l1
    end.
Proof.
  induction l1 as [|x l1 IH]; simpl.
  - now destruct (last_titled t l2).
  - rewrite IH. now destruct (last_titled t l2).
Qed.

Lemma last_titled_entries (t : string) (l1 : list SurveyRow) :
  forall l2 : list SurveyRow,
    map (fun r => (survey_title r, info_of r)) l1
    = map (fun r => (survey_title r, info_of r)) l2 ->
    info_of <$> last_titled t l1 = info_of <$> last_titled t l2.
Proof.
  induction l1 as [|x l1 IH]; intros [|y l2]; cbn [map]; try discriminate;
    [reflexivity|].
  intros [= Ht Hq He Hrest]. cbn [last_titled]. specialize (IH l2 Hrest).
  destruct (last_titled t l1), (last_titled t l2); cbn in IH |- *;
    try discriminate; [exact IH|].
  rewrite Ht. destruct (String.eqb (survey_title y) t); cbn; [|reflexivity].
  unfold info_of. now rewrite Hq, He.
Qed.

(** The first read of a process. *)
Lemma get_surveys_cold (w : World) :
  surveys_memo w = None ->
  fst (get_surveys w) = Ok (json_group_object (survey w)).
Proof.
  intros Hm. rewrite get_surveys_eval. unfold current_surveys. now rewrite Hm.
Qed.

(** X4: the first read of a process returns a mapping whose keys are the
    titles found in table survey, no more and no less; over an empty
    table it is the empty mapping, not an error. *)
Theorem get_surveys_keys (w : World) :
  surveys_memo w = None ->
  exists surveys,
    fst (get_surveys w) = Ok surveys /\
    (forall t, is_Some (surveys !! t) <->
               exists r, In r (survey w) /\ survey_title r = t) /\
    (survey w = [] -> surveys = ∅).
Proof.
  intros Hm. exists (json_group_object (survey w)).
  split; [now apply get_surveys_cold|]. split.
  - intros t. rewrite json_group_object_lookup. split.
    + destruct (last_titled t (survey w)) as [r|] eqn:Hl.
      * intros _. exists r. now apply last_titled_in.
      * intros [? [=]].
    + intros (r & Hin & Ht).
      destruct (last_titled_found t (survey w) r Hin Ht) as [r' ->]. cbn. eauto.
  - intros ->. reflexivity.
Qed.

Lemma get_surveys_keys_witness :
  exists surveys,
    fst (get_surveys fresh_world) = Ok surveys /\
    (forall t, is_Some (surveys !! t) <->
               exists r, In r (survey fresh_world) /\ survey_title r = t) /\
    (survey fresh_world = [] -> surveys = ∅).
Proof.
  apply (get_surveys_keys fresh_world). reflexivity.
Defined.

(** X5: when the titles of table survey are distinct, rows inserted
    again with the titles, questions and expiries of the rows already
    there, as by a second run of the seeding of dbinit, leave the catalog
    that a new process reads as it was.  (With two different rows under
    one title the row kept is the one SQLite reads last; nothing is said
    of that case.) *)
Theorem get_surveys_reseeded (w1 w2 : World) (again : list SurveyRow) :
  surveys_memo w1 = None ->
  surveys_memo w2 = None ->
  NoDup (map survey_title (survey w1)) ->
  survey w2 = survey w1 ++ again ->
  map (fun r => (survey_title r, info_of r)) again
  = map (fun r => (survey_title r, info_of r)) (survey w1) ->
  exists surveys,
    fst (get_surveys w1) = Ok surveys /\
    fst (get_surveys w2) = Ok surveys /\
    length (survey w2) = (2 * length (survey w1))%nat.
Proof.
  intros Hm1 Hm2 _ Hrows Hsame. exists (json_group_object (survey w1)).
  split; [now apply get_surveys_cold|]. split.
  - rewrite (get_surveys_cold w2 Hm2), Hrows. f_equal.
    apply map_eq. intros t.
    rewrite !json_group_object_lookup, last_titled_app.
    pose proof (last_titled_entries t again (survey w1) Hsame) as He.
    destruct (last_titled t again) as [r|]; [exact He | reflexivity].
  - rewrite Hrows, length_app.
    apply (f_equal length) in Hsame. rewrite !length_map in Hsame. lia.
Qed.

Lemma get_surveys_reseeded_witness :
  exists surveys,
    fst (get_surveys fresh_world) = Ok surveys /\
    fst (get_surveys seeded_twice) = Ok surveys /\
    length (survey seeded_twice) = (2 * length (survey fresh_world))%nat.
Proof.
  apply (get_surveys_reseeded fresh_world seeded_twice
           (dbinit_surveys 1669100000 1669975200)).
  - reflexivity.
  - reflexivity.
  - apply (bool_decide_unpack _). vm_compute. exact I.
  - reflexivity.
  - reflexivity.
Defined.

(* ===================================================================== *)
(** ** Further properties: the storage accessor *)
(* ===================================================================== *)

Lemma cursor_pragma (setting : string) (p : gmap string string) (w : World) :
  cursor_execute (Pragma setting) p w = (Ok [], log_statement (Pragma setting) w).
Proof. reflexivity. Qed.

Lemma dbexecute_dict (sql : Sql) (d : gmap string string) (one all : bool) (w : World) :
  dbexecute sql (PDict d) one all w
  = match cursor_execute sql d (opened w) with
    | (Ok rows, w') =>
        (Ok (if all then FRows (if one then tail rows else rows)
             else if one then fetchone_of rows else FNone), w')
    | (Raise e, w') => (Raise e, w')
    end.
Proof.
  unfold dbexecute, mbind, M_bind.
  do 4 (rewrite cursor_pragma; cbv beta iota).
  fold (opened w).
  destruct (cursor_execute sql d (opened w)) as [[rows|e] w']; [|reflexivity].
  destruct one, all; reflexivity.
Qed.

Lemma dbexecute_none (sql : Sql) (one all : bool) (w : World) :
  dbexecute sql PNone one all w = dbexecute sql (PDict ∅) one all w.
Proof. reflexivity. Qed.

Lemma cursor_insert_incomplete (d : gmap string string) (w : World) :
  complete_params d = false ->
  cursor_execute InsertResponse d w
  = (Raise ProgrammingError, log_statement InsertResponse w).
Proof.
  unfold complete_params, cursor_execute, mbind, M_bind, modify_world, get_world.
  cbn [fst snd]. cbv beta iota.
  destruct (d !! "title"), (d !! "data"), (d !! "agent"); try reflexivity.
  rewrite !bool_decide_true by eauto. discriminate.
Qed.

Lemma cursor_insert_complete (d : gmap string string) (w : World) :
  complete_params d = true ->
  cursor_execute InsertResponse d w
  = (Ok [],
     set_response (fun l => l ++ row_of_params (clock w) d)
       (log_statement InsertResponse w)).
Proof.
  unfold complete_params, row_of_params, cursor_execute, mbind, M_bind,
    modify_world, get_world.
  cbn [fst snd]. cbv beta iota.
  destruct (d !! "title"), (d !! "data"), (d !! "agent"); try reflexivity;
    intros H; exfalso; revert H;
    repeat (rewrite bool_decide_false by (intros [? [=]]));
    rewrite ?andb_false_r; cbn; discriminate.
Qed.

(** X6: an INSERT whose parameters lack one of title, data and agent,
    the call without parameters among them, raises ProgrammingError and
    leaves both tables as they were. *)
Theorem dbexecute_insert_missing_parameter
  (d : gmap string string) (one all : bool) (w : World) :
  complete_params d = false ->
  exists w',
    dbexecute InsertResponse (PDict d) one all w = (Raise ProgrammingError, w') /\
    response w' = response w /\
    survey w' = survey w /\
    exists w'',
      dbexecute InsertResponse PNone one all w = (Raise ProgrammingError, w'') /\
      response w'' = response w.
Proof.
  intros Hd. eexists. split.
  { rewrite dbexecute_dict, (cursor_insert_incomplete d _ Hd). reflexivity. }
  split; [reflexivity|]. split; [reflexivity|].
  eexists. split.
  { rewrite dbexecute_none, dbexecute_dict, cursor_insert_incomplete; reflexivity. }
  reflexivity.
Qed.

Lemma dbexecute_insert_missing_parameter_witness :
  exists w',
    dbexecute InsertResponse
      (PDict {["title" := "favorite"; "data" := "Adder"]}) false false busy_world
    = (Raise ProgrammingError, w') /\
    response w' = response busy_world /\
    survey w' = survey busy_world /\
    exists w'',
      dbexecute InsertResponse PNone false false busy_world
      = (Raise ProgrammingError, w'') /\
      response w'' = response busy_world.
Proof.
  apply (dbexecute_insert_missing_parameter
           {["title" := "favorite"; "data" := "Adder"]} false false busy_world).
  vm_compute. reflexivity.
Defined.

Lemma executemany_insert (l : list (gmap string string)) :
  forall w : World,
    forallb complete_params l = true ->
    exists w',
      cursor_executemany InsertResponse l w = (Ok [], w') /\
      response w' = response w ++ flat_map (row_of_params (clock w)) l /\
      executed w' = executed w ++ replicate (length l) InsertResponse /\
      clock w' = clock w /\ survey w' = survey w /\
      surveys_memo w' = surveys_memo w.
Proof.
  induction l as [|d l IH]; intros w Hall.
  - exists w. cbn. rewrite !app_nil_r. repeat split.
  - cbn [forallb] in Hall. apply andb_true_iff in Hall as [Hd Hl].
    cbn [cursor_executemany]. unfold mbind, M_bind.
    rewrite (cursor_insert_complete d w Hd).
    destruct (IH (set_response (fun l0 => l0 ++ row_of_params (clock w) d)
                    (log_statement InsertResponse w)) Hl)
      as (w' & Hrun & Hrows & Hlog & Hclock & Hsurvey & Hmemo).
    exists w'. split; [exact Hrun|].
    cbn [response set_response log_statement executed clock survey surveys_memo]
      in Hrows, Hlog, Hclock, Hsurvey, Hmemo.
    rewrite Hrows, Hlog. cbn [flat_map length replicate].
    rewrite <- !app_assoc. auto.
Qed.

(** X7: given a list of parameter mappings that each bind title, data and
    agent, dbexecute runs the INSERT once per mapping, in the order of the
    list, after the four pragmas; the rows are appended in that order, and
    what is fetched is empty. *)
Theorem dbexecute_many_inserts
  (l : list (gmap string string)) (one all : bool) (w : World) :
  forallb complete_params l = true ->
  exists w',
    dbexecute InsertResponse (PList l) one all w
    = (Ok (if all then FRows [] else FNone), w') /\
    response w' = response w ++ flat_map (row_of_params (clock w)) l /\
    length (response w') = (length (response w) + length l)%nat /\
    executed w' = executed (opened w) ++ replicate (length l) InsertResponse.
Proof.
  intros Hall.
  destruct (executemany_insert l (opened w) Hall)
    as (w' & Hrun & Hrows & Hlog & _).
  exists w'. split.
  { unfold dbexecute, mbind, M_bind.
    do 4 (rewrite cursor_pragma; cbv beta iota).
    fold (opened w). rewrite Hrun. destruct one, all; reflexivity. }
  split; [exact Hrows|]. split; [|exact Hlog].
  rewrite Hrows, length_app. f_equal.
  clear -Hall. induction l as [|d l IH]; [reflexivity|].
  cbn [forallb] in Hall. apply andb_true_iff in Hall as [Hd Hl].
  cbn [flat_map]. rewrite length_app, (IH Hl). f_equal.
  unfold complete_params in Hd. unfold row_of_params.
  destruct (d !! "title"), (d !! "data"), (d !! "agent"); try reflexivity;
    exfalso; revert Hd;
    repeat (rewrite bool_decide_false by (intros [? [=]]));
    rewrite ?andb_false_r; cbn; discriminate.
Qed.

Lemma dbexecute_many_inserts_witness :
  exists w',
    dbexecute InsertResponse
      (PList [row_params "task" "Backups" "python-requests/2.28";
              row_params "favorite" "Adder" "Python-urllib/3.11"])
      true true fresh_world
    = (Ok (FRows []), w') /\
    response w'
    = response fresh_world ++
      flat_map (row_of_params (clock fresh_world))
        [row_params "task" "Backups" "python-requests/2.28";
         row_params "favorite" "Adder" "Python-urllib/3.11"] /\
    length (response w') = (length (response fresh_world) + 2)%nat /\
    executed w' = executed (opened fresh_world) ++ replicate 2 InsertResponse.
Proof.
  apply (dbexecute_many_inserts
           [row_params "task" "Backups" "python-requests/2.28";
            row_params "favorite" "Adder" "Python-urllib/3.11"]
           true true fresh_world).
  vm_compute. reflexivity.
Defined.

(** X8: for the two SELECT statements of the server, which return one
    row each, dbexecute leaves both tables as they were and returns: with
    no flag None, with fetchone the row, with fetchall alone the list of
    that row, and with both flags the empty list, fetchone having taken
    the row that fetchall then misses. *)
Theorem dbexecute_select_modes
  (sql : Sql) (params : Params) (w : World) :
  sql = SelectSurveyObject \/ sql = SelectResponseArray ->
  params = PNone \/ (exists d, params = PDict d) ->
  exists (row : Row) (w' : World),
    dbexecute sql params true false w = (Ok (FRow row), w') /\
    dbexecute sql params false false w = (Ok FNone, w') /\
    dbexecute sql params false true w = (Ok (FRows [row]), w') /\
    dbexecute sql params true true w = (Ok (FRows []), w') /\
    response w' = response w /\
    survey w' = survey w /\
    executed w' = executed (opened w) ++ [sql].
Proof.
  intros Hsql Hparams.
  assert (Hd : exists d, forall one all,
               dbexecute sql params one all w = dbexecute sql (PDict d) one all w).
  { destruct Hparams as [-> | [d ->]]; [exists ∅ | exists d]; reflexivity. }
  destruct Hd as [d Hd]. rewrite !Hd, !dbexecute_dict.
  destruct Hsql as [-> | ->]; eexists _, _; repeat split.
Qed.

Lemma dbexecute_select_modes_witness :
  exists (row : Row) (w' : World),
    dbexecute SelectResponseArray PNone true false busy_world = (Ok (FRow row), w') /\
    dbexecute SelectResponseArray PNone false false busy_world = (Ok FNone, w') /\
    dbexecute SelectResponseArray PNone false true busy_world = (Ok (FRows [row]), w') /\
    dbexecute SelectResponseArray PNone true true busy_world = (Ok (FRows []), w') /\
    response w' = response busy_world /\
    survey w' = survey busy_world /\
    executed w' = executed (opened busy_world) ++ [SelectResponseArray].
Proof.
  apply (dbexecute_select_modes SelectResponseArray PNone busy_world).
  - right. reflexivity.
  - left. reflexivity.
Defined.

(* ===================================================================== *)
(** ** Further properties: the handler *)
(* ===================================================================== *)

Lemma after_get_surveys_survey (w : World) :
  survey (after_get_surveys w) = survey w.
Proof. unfold after_get_surveys. destruct (surveys_memo w); reflexivity. Qed.

Lemma app_exception_keeps (scope : Scope) (proto : Proto) (w w' : World) (e : Exn) :
  app scope proto w = (Raise e, w') -> w' = after_get_surveys w.
Proof. handler_cases; now intros [= <- <-]. Qed.

(** X9: the handler raises in two cases only, and then leaves both
    tables as they were: AttributeError exactly when there is no
    user-agent header; UnicodeDecodeError exactly for a POST that passes
    both checks and whose body is not UTF-8. *)
Theorem app_exceptions (scope : Scope) (proto : Proto) (w : World) :
  ((exists w', app scope proto w = (Raise AttributeError, w')) <->
   headers scope !! "user-agent" = None) /\
  ((exists w', app scope proto w = (Raise UnicodeDecodeError, w')) <->
   (exists a surveys action,
       headers scope !! "user-agent" = Some a /\
       Text.startswith (Text.casefold a) "python" = true /\
       fst (get_surveys w) = Ok surveys /\
       fst (get_action (path scope) w) = Ok action /\
       is_Some (surveys !! action) /\
       method scope = "POST" /\
       Text.utf8_valid (received proto) = false)) /\
  (forall e w', app scope proto w = (Raise e, w') ->
                (e = AttributeError \/ e = UnicodeDecodeError) /\
                response w' = response w /\ survey w' = survey w).
Proof.
  split; [|split].
  - split.
    + intros [w' H]. apply app_raises in H as [[Hn _] | (_ & _ & [=])]. exact Hn.
    + intros Hn. eexists. now apply no_user_agent_raises.
  - split.
    + intros [w' H]. revert H. rewrite app_eval. unfold app_outcome.
      destruct (headers scope !! "user-agent") as [a|]; [|discriminate].
      destruct (negb (allowed a)) eqn:Hal; [discriminate|].
      destruct (negb (bool_decide (is_Some (current_surveys w !! action_of (path scope)))))
        eqn:Hin; [discriminate|].
      destruct (String.eqb (method scope) "POST") eqn:Hm.
      * destruct (Text.utf8_valid (received proto)) eqn:Hv; [discriminate|].
        intros _. exists a, (current_surveys w), (action_of (path scope)).
        apply negb_false_iff in Hal, Hin. apply bool_decide_eq_true in Hin.
        apply String.eqb_eq in Hm.
        rewrite get_surveys_eval, get_action_eval. repeat split; auto.
      * destruct (String.eqb (method scope) "GET"); discriminate.
    + intros (a & surveys & action & Ha & Hok & Hs & Hact & Hin & Hm & Hv).
      apply catalog_is in Hs. apply action_is in Hact. subst surveys action.
      eexists. rewrite (app_accepted scope proto w a Ha Hok Hin). cbv zeta.
      rewrite Hm, Hv. reflexivity.
  - intros e w' H. pose proof (app_exception_keeps _ _ _ _ _ H) as ->.
    apply app_raises in H. split.
    + destruct H as [[_ ->] | (_ & _ & ->)]; auto.
    + split; [apply after_get_surveys_response | apply after_get_surveys_survey].
Qed.

(** X10: the client test comes first: a client whose user-agent header
    is present and does not start with python, case folded, is answered
    451 with the fixed message whatever the path, known or not, the verb
    and the body; no row is written and no statement is sent beyond the
    catalog read. *)
Theorem disallowed_client_first
  (scope : Scope) (proto : Proto) (w : World) (a : string) :
  headers scope !! "user-agent" = Some a ->
  Text.startswith (Text.casefold a) "python" = false ->
  exists r w',
    app scope proto w = (Ok r, w') /\
    status r = 451 /\
    Json.loads (body r)
    = Some (Json.Obj [("error",
                       Json.Obj [("code", Json.Int 451);
                                 ("message", Json.Str "Try using a Python HTTP client")])]) /\
    response w' = response w /\
    executed w' = executed w ++ catalog_statements w.
Proof.
  intros Ha Hno. eexists _, _.
  split; [now apply disallowed_client_451 with (a := a)|].
  split; [reflexivity|]. split; [reflexivity|].
  split; [apply after_get_surveys_response | apply after_get_surveys_executed].
Qed.

Lemma disallowed_client_first_witness :
  exists r w',
    app (request "POST" "/nothing/here" (Some "Mozilla/5.0 (python inside)"))
      (sending (String "255" EmptyString)) busy_world = (Ok r, w') /\
    status r = 451 /\
    Json.loads (body r)
    = Some (Json.Obj [("error",
                       Json.Obj [("code", Json.Int 451);
                                 ("message", Json.Str "Try using a Python HTTP client")])]) /\
    response w' = response busy_world /\
    executed w' = executed busy_world ++ catalog_statements busy_world.
Proof.
  apply (disallowed_client_first
           (request "POST" "/nothing/here" (Some "Mozilla/5.0 (python inside)"))
           (sending (String "255" EmptyString)) busy_world
           "Mozilla/5.0 (python inside)").
  - vm_compute. reflexivity.
  - reflexivity.
Defined.

(** X11: for an allowed client the catalog test comes before the verb
    and the body: an action that is not a key of the catalog is answered
    404 for every verb, POST with a body that is not UTF-8 included; no
    row is written and no statement is sent beyond the catalog read. *)
Theorem unknown_survey_any_verb
  (scope : Scope) (proto : Proto) (w : World) (a : string)
  (surveys : gmap string SurveyInfo) (action : string) :
  headers scope !! "user-agent" = Some a ->
  Text.startswith (Text.casefold a) "python" = true ->
  fst (get_surveys w) = Ok surveys ->
  fst (get_action (path scope) w) = Ok action ->
  surveys !! action = None ->
  exists r w',
    app scope proto w = (Ok r, w') /\
    status r = 404 /\
    Json.loads (body r)
    = Some (Json.Obj [("error",
                       Json.Obj [("code", Json.Int 404);
                                 ("message",
                                  Json.Str ("Could not find any survey called "
                                            +:+ action))])]) /\
    response w' = response w /\
    executed w' = executed w ++ catalog_statements w.
Proof.
  intros Ha Hok Hs Hact Hnone.
  apply catalog_is in Hs. apply action_is in Hact. subst surveys action.
  exists (error_response 404 (not_found (action_of (path scope)))),
         (after_get_surveys w).
  split.
  { rewrite app_eval. unfold app_outcome, allowed. rewrite Ha, Hok, Hnone.
    reflexivity. }
  split; [reflexivity|]. split.
  { unfold error_response. cbn [body]. rewrite dumps_envelope.
    apply loads_envelope. now left. }
  split; [apply after_get_surveys_response | apply after_get_surveys_executed].
Qed.

Lemma unknown_survey_any_verb_witness :
  exists r w',
    app (request "POST" "/Favorite" (Some "python-requests/2.28"))
      (sending (String "255" EmptyString)) busy_world = (Ok r, w') /\
    status r = 404 /\
    Json.loads (body r)
    = Some (Json.Obj [("error",
                       Json.Obj [("code", Json.Int 404);
                                 ("message",
                                  Json.Str ("Could not find any survey called "
                                            +:+ "Favorite"))])]) /\
    response w' = response busy_world /\
    executed w' = executed busy_world ++ catalog_statements busy_world.
Proof.
  apply (unknown_survey_any_verb
           (request "POST" "/Favorite" (Some "python-requests/2.28"))
           (sending (String "255" EmptyString)) busy_world
           "python-requests/2.28"
           (json_group_object (dbinit_surveys 1669000000 1669975200)) "Favorite").
  - vm_compute. reflexivity.
  - reflexivity.
  - reflexivity.
  - reflexivity.
  - vm_compute. reflexivity.
Defined.

(** X12: one request writes one row or none: one, holding the action,
    the body and the user-agent, exactly when it is a POST answered 200;
    in every other case, an exception included, table response is as it
    was.  Table survey is never written. *)
Theorem row_written_by_accepted_post (scope : Scope) (proto : Proto) (w : World) :
  survey (snd (app scope proto w)) = survey w /\
  ((method scope = "POST" /\
    (exists r, fst (app scope proto w) = Ok r /\ status r = 200) /\
    exists action a,
      fst (get_action (path scope) w) = Ok action /\
      headers scope !! "user-agent" = Some a /\
      response (snd (app scope proto w))
      = response w ++ [{| title := action; created := clock w;
                          data := received proto; agent := a |}])
   \/
   ((method scope <> "POST" \/
     forall r, fst (app scope proto w) = Ok r -> status r <> 200) /\
    response (snd (app scope proto w)) = response w)).
Proof.
  rewrite app_eval, get_action_eval. unfold app_outcome.
  destruct (headers scope !! "user-agent") as [a|].
  2:{ cbn [fst snd]. split; [apply after_get_surveys_survey|]. right.
      split; [right; discriminate | apply after_get_surveys_response]. }
  destruct (negb (allowed a)).
  { cbn [fst snd]. split; [apply after_get_surveys_survey|]. right.
    split; [right; now intros r [= <-] | apply after_get_surveys_response]. }
  destruct (negb (bool_decide _)).
  { cbn [fst snd]. split; [apply after_get_surveys_survey|]. right.
    split; [right; now intros r [= <-] | apply after_get_surveys_response]. }
  destruct (String.eqb_spec (method scope) "POST") as [Hm | Hm].
  - destruct (Text.utf8_valid (received proto)).
    + cbn [fst snd]. split; [apply after_get_surveys_survey|]. left.
      split; [exact Hm|]. split; [eexists; split; reflexivity|].
      exists (action_of (path scope)), a. repeat split.
      now rewrite inserted_response, after_get_surveys_response,
        after_get_surveys_clock.
    + cbn [fst snd]. split; [apply after_get_surveys_survey|]. right.
      split; [right; discriminate | apply after_get_surveys_response].
  - destruct (String.eqb (method scope) "GET"); cbn [fst snd];
      (split; [apply after_get_surveys_survey|]); right;
      (split; [now left | apply after_get_surveys_response]).
Qed.

(** The rows of one request. *)
Lemma app_rows (scope : Scope) (proto : Proto) (w : World) :
  survey (snd (app scope proto w)) = survey w /\
  clock (snd (app scope proto w)) = clock w /\
  exists extra,
    response (snd (app scope proto w)) = response w ++ extra /\
    Forall (handler_row (current_surveys w)) extra.
Proof.
  rewrite app_eval. unfold app_outcome.
  destruct (headers scope !! "user-agent") as [a|]; cbn [snd];
    [|rewrite after_get_surveys_survey, after_get_surveys_clock,
        after_get_surveys_response;
      repeat split; exists []; now rewrite app_nil_r].
  destruct (negb (allowed a)) eqn:Hal; cbn [snd];
    [rewrite after_get_surveys_survey, after_get_surveys_clock,
       after_get_surveys_response;
     repeat split; exists []; now rewrite app_nil_r|].
  destruct (negb (bool_decide _)) eqn:Hin; cbn [snd];
    [rewrite after_get_surveys_survey, after_get_surveys_clock,
       after_get_surveys_response;
     repeat split; exists []; now rewrite app_nil_r|].
  apply negb_false_iff in Hal, Hin. apply bool_decide_eq_true in Hin.
  destruct (String.eqb (method scope) "POST").
  - destruct (Text.utf8_valid (received proto)) eqn:Hv; cbn [snd].
    + rewrite inserted_response, inserted_clock.
      change (survey (inserted (action_of (path scope)) (received proto) a
                        (after_get_surveys w)))
        with (survey (after_get_surveys w)).
      rewrite after_get_surveys_survey, after_get_surveys_clock,
        after_get_surveys_response.
      repeat split. eexists. split; [reflexivity|].
      constructor; [|constructor]. repeat split; assumption.
    + rewrite after_get_surveys_survey, after_get_surveys_clock,
        after_get_surveys_response.
      repeat split; exists []; now rewrite app_nil_r.
  - destruct (String.eqb (method scope) "GET"); cbn [snd];
      unfold selected; cbn [survey clock response log_statement opened];
      rewrite after_get_surveys_survey, after_get_surveys_clock,
        after_get_surveys_response;
      repeat split; exists []; now rewrite app_nil_r.
Qed.

(** X13: whatever requests the handler serves, in whatever order and
    with whatever outcomes, table survey stays as it was, the rows of
    table response stay in place, and every row added is for a survey of
    the catalog, from a client that passes the test, with UTF-8 text. *)
Theorem serve_all_invariant (reqs : list (Scope * Proto)) (w : World) :
  survey (serve_all reqs w) = survey w /\
  exists added,
    response (serve_all reqs w) = response w ++ added /\
    Forall (fun row =>
              (exists surveys, fst (get_surveys w) = Ok surveys /\
                               is_Some (surveys !! title row)) /\
              Text.startswith (Text.casefold (agent row)) "python" = true /\
              Text.utf8_valid (data row) = true)
           added.
Proof.
  assert (H : survey (serve_all reqs w) = survey w /\
              clock (serve_all reqs w) = clock w /\
              current_surveys (serve_all reqs w) = current_surveys w /\
              exists added,
                response (serve_all reqs w) = response w ++ added /\
                Forall (handler_row (current_surveys w)) added).
  { revert w. induction reqs as [|[scope proto] reqs IH]; intros w.
    - repeat split. exists []. split; [now rewrite app_nil_r | constructor].
    - cbn [serve_all fold_left]. fold (serve_all reqs (serve w (scope, proto))).
      destruct (IH (serve w (scope, proto))) as (Hs & Hc & Hcat & added & Hr & Ha).
      unfold serve in *. cbn [fst snd] in *.
      destruct (app_rows scope proto w) as (Hs0 & Hc0 & extra & Hr0 & Ha0).
      rewrite app_keeps_surveys in Hcat, Ha.
      split; [congruence|]. split; [congruence|]. split; [exact Hcat|].
      exists (extra ++ added). split.
      + now rewrite Hr, Hr0, <- app_assoc.
      + apply Forall_app. split; assumption. }
  destruct H as (Hs & _ & _ & added & Hr & Ha).
  split; [exact Hs|]. exists added. split; [exact Hr|].
  eapply Forall_impl; [exact Ha|].
  intros row (Hin & Hag & Hv). split; [|split; assumption].
  exists (current_surveys w). now rewrite get_surveys_eval.
Qed.

(** X14: a GET that is answered 200 changes no row, and the same GET
    sent again right after is answered with the same status, headers and
    body. *)
Theorem retrieve_repeatable
  (scope : Scope) (proto : Proto) (w : World) (a : string)
  (surveys : gmap string SurveyInfo) (action : string) :
  method scope = "GET" ->
  headers scope !! "user-agent" = Some a ->
  Text.startswith (Text.casefold a) "python" = true ->
  fst (get_surveys w) = Ok surveys ->
  fst (get_action (path scope) w) = Ok action ->
  is_Some (surveys !! action) ->
  exists r w1 w2,
    app scope proto w = (Ok r, w1) /\
    response w1 = response w /\
    app scope proto w1 = (Ok r, w2) /\
    response w2 = response w.
Proof.
  intros Hm Ha Hok Hs Hact Hin.
  apply catalog_is in Hs. apply action_is in Hact. subst surveys action.
  set (w1 := selected (after_get_surveys w)).
  assert (Hr1 : response w1 = response w) by apply after_get_surveys_response.
  assert (Hin1 : is_Some (current_surveys w1 !! action_of (path scope))).
  { change (current_surveys w1) with (current_surveys (after_get_surveys w)).
    now rewrite after_get_surveys_current. }
  eexists _, w1, _. split; [apply (app_retrieve scope proto w a Hm Ha Hok Hin)|].
  split; [exact Hr1|]. split.
  - rewrite (app_retrieve scope proto w1 a Hm Ha Hok Hin1). now rewrite Hr1.
  - change (response (selected (after_get_surveys w1)))
      with (response (after_get_surveys w1)).
    now rewrite after_get_surveys_response.
Qed.

Lemma retrieve_repeatable_witness :
  exists r w1 w2,
    app (request "GET" "/task" (Some "Python-urllib/3.11")) (sending "") busy_world
    = (Ok r, w1) /\
    response w1 = response busy_world /\
    app (request "GET" "/task" (Some "Python-urllib/3.11")) (sending "") w1
    = (Ok r, w2) /\
    response w2 = response busy_world.
Proof.
  apply (retrieve_repeatable
           (request "GET" "/task" (Some "Python-urllib/3.11")) (sending "")
           busy_world "Python-urllib/3.11"
           (json_group_object (dbinit_surveys 1669000000 1669975200)) "task").
  - reflexivity.
  - vm_compute. reflexivity.
  - reflexivity.
  - reflexivity.
  - reflexivity.
  - vm_compute. eexists. reflexivity.
Defined.

(** The statements of one request: those of the catalog read, then none
    that is the catalog SELECT; the memo is filled afterwards. *)
Lemma app_statements (scope : Scope) (proto : Proto) (w : World) :
  is_Some (surveys_memo (snd (app scope proto w))) /\
  exists sent,
    executed (snd (app scope proto w)) = executed w ++ catalog_statements w ++ sent /\
    filter is_catalog_select sent = [].
Proof.
  assert (Hmemo : is_Some (surveys_memo (after_get_surveys w))).
  { rewrite after_get_surveys_memo. eauto. }
  rewrite app_eval. unfold app_outcome.
  repeat match goal with
    | |- context [match ?x !! ?k with _ => _ end] => destruct (x !! k)
    | |- context [if ?b then _ else _] => destruct b
    end; cbn [snd];
    (split; [exact Hmemo|]);
    unfold inserted, selected, opened;
    cbn [executed set_response log_statement];
    rewrite after_get_surveys_executed, <- ?app_assoc;
    first [ now (exists []; rewrite app_nil_r)
          | eexists; split; [reflexivity | reflexivity] ].
Qed.

(** X15: over any sequence of requests the catalog SELECT is sent once
    if the process had not read the catalog yet and there is a request,
    and never otherwise. *)
Theorem catalog_read_once (reqs : list (Scope * Proto)) (w : World) :
  exists sent,
    executed (serve_all reqs w) = executed w ++ sent /\
    length (filter is_catalog_select sent)
    = match surveys_memo w, reqs with
      | None, _ :: _ => 1%nat
      | _, _ => 0%nat
      end.
Proof.
  revert w. induction reqs as [|[scope proto] reqs IH]; intros w.
  - exists []. split; [now rewrite app_nil_r|]. now destruct (surveys_memo w).
  - cbn [serve_all fold_left]. fold (serve_all reqs (serve w (scope, proto))).
    destruct (IH (serve w (scope, proto))) as (sent & Hlog & Hcount).
    unfold serve in *. cbn [fst snd] in *.
    destruct (app_statements scope proto w) as ([m Hm] & sent0 & Hlog0 & Hnone).
    rewrite Hm in Hcount.
    exists (catalog_statements w ++ sent0 ++ sent). split.
    + rewrite Hlog, Hlog0, <- !app_assoc. reflexivity.
    + rewrite !filter_app, !length_app, Hnone.
      assert (Hz : length (filter is_catalog_select sent) = 0%nat)
        by (destruct reqs; exact Hcount).
      rewrite Hz. unfold catalog_statements.
      destruct (surveys_memo w); reflexivity.
Qed.

(* ===================================================================== *)
(** ** Further properties: the reply to a submission *)
(* ===================================================================== *)

Section SubmitReplyText.
Import Text Json.

Lemma plain_char_escape (c : ascii) :
  plain_char c = true -> escape_char c = chr c.
Proof.
  unfold plain_char, escape_char.
  destruct (Ascii.eqb c dquote), (Ascii.eqb c backslash), (between 0 31 c);
    cbn; congruence.
Qed.

Lemma plain_escape (s : string) : plain s = true -> escape s = s.
Proof.
  induction s as [|c s IH]; [reflexivity|].
  unfold plain. cbn [all_chars]. intros [Hc Hs]%andb_true_iff.
  cbn [escape]. rewrite (plain_char_escape c Hc), (IH Hs). reflexivity.
Qed.

Lemma scan_plain (s t : string) :
  plain s = true -> scan_string (s +:+ t) = prepend s (scan_string t).
Proof.
  intros Hs. induction s as [|c s IH].
  - cbn [String.append]. unfold prepend.
    now destruct (scan_string t) as [[x r]|].
  - unfold plain in Hs. cbn [all_chars] in Hs.
    apply andb_true_iff in Hs as [Hc Hs].
    pose proof (scan_escape_char c (s +:+ t)) as Hstep.
    rewrite (plain_char_escape c Hc) in Hstep. cbn [String.append chr] in Hstep.
    cbn [String.append]. rewrite Hstep, (IH Hs).
    unfold prepend. now destruct (scan_string t) as [[x r]|].
Qed.

Lemma skip_ws_rest (a t : string) (c : ascii) :
  is_ws c = false -> skip_ws (a +:+ String c t) <> EmptyString.
Proof.
  intros Hc. induction a as [|x a IH]; cbn [String.append skip_ws].
  - now rewrite Hc.
  - destruct (is_ws x); [exact IH | discriminate].
Qed.

Lemma scan_escaped_quote (t : string) :
  scan_string (String backslash (String dquote t))
  = prepend (chr dquote) (scan_string t).
Proof. reflexivity. Qed.

Lemma scan_closing_quote (t : string) :
  scan_string (String dquote t) = Some (EmptyString, t).
Proof. reflexivity. Qed.

(** The reply to an answer whose first character in need of an escape is
    a quote: the literal ends there. *)
Lemma submitted_cut (before rest : string) (f : nat) :
  plain before = true ->
  parse_value (S f) (submitted (before +:+ String dquote rest))
  = Some (Str ("Successfully submitted answer " +:+ chr dquote +:+ before),
          rest +:+ String backslash (String dquote (String "." (chr dquote)))).
Proof.
  intros Hb.
  assert (E : submitted (before +:+ String dquote rest)
              = String dquote
                  ("Successfully submitted answer " +:+
                   String backslash
                     (String dquote
                        (before +:+
                         String dquote
                           (rest +:+
                            String backslash
                              (String dquote (String "." (chr dquote)))))))).
  { unfold submitted. cbn [chr String.append]. rewrite append_assoc.
    reflexivity. }
  rewrite E, parse_value_literal.
  rewrite scan_plain by reflexivity.
  rewrite scan_escaped_quote.
  rewrite scan_plain by exact Hb.
  rewrite scan_closing_quote. cbn [prepend].
  rewrite append_empty_r. reflexivity.
Qed.

End SubmitReplyText.

(** X16: when the answer holds no quote, no backslash and no control
    character, the reply to its submission is the JSON string of the
    sentence Successfully submitted answer "<answer>". *)
Theorem submit_reply_plain
  (scope : Scope) (w : World) (a answer : string)
  (surveys : gmap string SurveyInfo) (action : string) :
  method scope = "POST" ->
  headers scope !! "user-agent" = Some a ->
  Text.startswith (Text.casefold a) "python" = true ->
  fst (get_surveys w) = Ok surveys ->
  fst (get_action (path scope) w) = Ok action ->
  is_Some (surveys !! action) ->
  Text.utf8_valid answer = true ->
  plain answer = true ->
  exists r w',
    app scope (sending answer) w = (Ok r, w') /\
    status r = 200 /\
    Json.loads (body r)
    = Some (Json.Str ("Successfully submitted answer " +:+ Text.chr Text.dquote
                      +:+ answer +:+ Text.chr Text.dquote +:+ ".")).
Proof.
  intros Hm Ha Hok Hs Hact Hin Hv Hplain.
  apply catalog_is in Hs. apply action_is in Hact. subst surveys action.
  eexists _, _. split; [apply (app_submit scope w a answer Hm Ha Hok Hin Hv)|].
  split; [reflexivity|].
  cbn [body ok_response].
  apply (submitted_plain answer (plain_escape answer Hplain)).
Qed.

Lemma submit_reply_plain_witness :
  exists r w',
    app (request "POST" "/task" (Some "python-httpx/0.23")) (sending "Log rotation")
      fresh_world = (Ok r, w') /\
    status r = 200 /\
    Json.loads (body r)
    = Some (Json.Str ("Successfully submitted answer " +:+ Text.chr Text.dquote
                      +:+ "Log rotation" +:+ Text.chr Text.dquote +:+ ".")).
Proof.
  apply (submit_reply_plain
           (request "POST" "/task" (Some "python-httpx/0.23")) fresh_world
           "python-httpx/0.23" "Log rotation"
           (json_group_object (dbinit_surveys 1669000000 1669975200)) "task").
  - reflexivity.
  - vm_compute. reflexivity.
  - reflexivity.
  - reflexivity.
  - reflexivity.
  - vm_compute. eexists. reflexivity.
  - reflexivity.
  - reflexivity.
Defined.

(** X17: when the first character of the answer that needs an escape is
    a quote, the answer is stored as it came and the request is answered
    200, with a body that is no JSON document: its literal ends at that
    quote and text follows. *)
Theorem submit_reply_cut_at_quote
  (scope : Scope) (w : World) (a before rest : string)
  (surveys : gmap string SurveyInfo) (action : string) :
  method scope = "POST" ->
  headers scope !! "user-agent" = Some a ->
  Text.startswith (Text.casefold a) "python" = true ->
  fst (get_surveys w) = Ok surveys ->
  fst (get_action (path scope) w) = Ok action ->
  is_Some (surveys !! action) ->
  Text.utf8_valid (before +:+ String Text.dquote rest) = true ->
  plain before = true ->
  exists r w',
    app scope (sending (before +:+ String Text.dquote rest)) w = (Ok r, w') /\
    status r = 200 /\
    response w'
    = response w ++ [{| title := action; created := clock w;
                        data := before +:+ String Text.dquote rest;
                        agent := a |}] /\
    (forall fuel, Json.loads_fuel fuel (body r) = None) /\
    Json.loads (body r) = None.
Proof.
  intros Hm Ha Hok Hs Hact Hin Hv Hplain.
  apply catalog_is in Hs. apply action_is in Hact. subst surveys action.
  eexists _, _. split; [apply (app_submit scope w a _ Hm Ha Hok Hin Hv)|].
  split; [reflexivity|]. split.
  { now rewrite inserted_response, after_get_surveys_response,
      after_get_surveys_clock. }
  cbn [body ok_response].
  assert (Hcut : forall fuel,
             Json.loads_fuel fuel (submitted (before +:+ String Text.dquote rest))
             = None).
  { intros [|f]; [reflexivity|]. unfold Json.loads_fuel.
    rewrite (submitted_cut before rest f Hplain).
    pose proof (skip_ws_rest rest
                  (String Text.dquote (String "." (Text.chr Text.dquote)))
                  Text.backslash eq_refl) as Hrest.
    destruct (Json.skip_ws _); [congruence | reflexivity]. }
  split; [exact Hcut | apply Hcut].
Qed.

Lemma submit_reply_cut_at_quote_witness :
  exists r w',
    app (request "POST" "/favorite" (Some "Python-urllib/3.11"))
      (sending ("The " +:+ String Text.dquote "Dead Parrot\ sketch")) fresh_world
    = (Ok r, w') /\
    status r = 200 /\
    response w'
    = response fresh_world ++
      [{| title := "favorite"; created := clock fresh_world;
          data := "The " +:+ String Text.dquote "Dead Parrot\ sketch";
          agent := "Python-urllib/3.11" |}] /\
    (forall fuel, Json.loads_fuel fuel (body r) = None) /\
    Json.loads (body r) = None.
Proof.
  apply (submit_reply_cut_at_quote
           (request "POST" "/favorite" (Some "Python-urllib/3.11")) fresh_world
           "Python-urllib/3.11" "The " "Dead Parrot\ sketch"
           (json_group_object (dbinit_surveys 1669000000 1669975200)) "favorite").
  - reflexivity.
  - vm_compute. reflexivity.
  - reflexivity.
  - reflexivity.
  - reflexivity.
  - vm_compute. eexists. reflexivity.
  - reflexivity.
  - reflexivity.
Defined.

(* ===================================================================== *)
(** ** Further properties: UTF-8 through concatenation and escaping *)
(* ===================================================================== *)

Section Utf8.
Import Text Json.

Lemma utf8_valid_append_bounded (n : nat) :
  forall a b : string,
    (String.length a <= n)%nat ->
    utf8_valid a = true ->
    utf8_valid (a +:+ b) = utf8_valid b.
Proof.
  induction n as [|n IH]; intros a b Hlen Ha.
  - destruct a; [reflexivity | simpl in Hlen; lia].
  - destruct a as [|c a1]; [reflexivity|].
    cbn [String.append]. cbn [utf8_valid] in Ha |- *.
    cbn [String.length] in Hlen.
    destruct (between 0 127 c); [apply IH; [lia | exact Ha]|].
    destruct (between 194 223 c).
    { destruct a1 as [|b0 a2]; [discriminate|].
      cbn [String.append String.length] in *.
      apply andb_true_iff in Ha as [H1 H2]. rewrite H1. cbn [andb].
      apply IH; [lia | exact H2]. }
    destruct (between 224 239 c).
    { destruct a1 as [|b0 [|c0 a3]]; try discriminate.
      cbn [String.append String.length] in *.
      apply andb_true_iff in Ha as [H12 H3].
      rewrite H12. cbn [andb]. apply IH; [lia | exact H3]. }
    destruct (between 240 244 c); [|discriminate].
    destruct a1 as [|b0 [|c0 [|d0 a4]]]; try discriminate.
    cbn [String.append String.length] in *.
    apply andb_true_iff in Ha as [H123 H4].
    rewrite H123. cbn [andb]. apply IH; [lia | exact H4].
Qed.

Lemma utf8_valid_append (a b : string) :
  utf8_valid a = true -> utf8_valid (a +:+ b) = utf8_valid b.
Proof. apply (utf8_valid_append_bounded (String.length a)). lia. Qed.

Lemma escape_char_ascii (c : ascii) :
  between 0 127 c = true -> utf8_valid (escape_char c) = true.
Proof.
  destruct c as [b0 b1 b2 b3 b4 b5 b6 b7].
  destruct b0, b1, b2, b3, b4, b5, b6, b7; intros H;
    first [reflexivity | discriminate H].
Qed.

Lemma escape_char_high (c : ascii) :
  between 0 127 c = false -> escape_char c = chr c.
Proof.
  destruct c as [b0 b1 b2 b3 b4 b5 b6 b7].
  destruct b0, b1, b2, b3, b4, b5, b6, b7; intros H;
    first [reflexivity | discriminate H].
Qed.

Lemma between_high (lo hi : N) (c : ascii) :
  (128 <= lo)%N -> between lo hi c = true -> between 0 127 c = false.
Proof.
  unfold between. intros Hlo [H1 _]%andb_true_iff.
  apply N.leb_le in H1. apply andb_false_iff. right. apply N.leb_gt. lia.
Qed.

Lemma escape_two (c d : ascii) (s : string) :
  between 0 127 c = false -> between 0 127 d = false ->
  escape (String c (String d s)) = String c (String d (escape s)).
Proof.
  intros Hc Hd. cbn [escape].
  now rewrite (escape_char_high c Hc), (escape_char_high d Hd).
Qed.

Lemma utf8_valid_escape_bounded (n : nat) :
  forall s : string,
    (String.length s <= n)%nat ->
    utf8_valid s = true ->
    utf8_valid (escape s) = true.
Proof.
  induction n as [|n IH]; intros s Hlen Hs.
  - destruct s; [reflexivity | simpl in Hlen; lia].
  - destruct s as [|c s1]; [reflexivity|].
    cbn [String.length] in Hlen.
    destruct (between 0 127 c) eqn:Hc.
    { cbn [escape]. rewrite utf8_valid_append by now apply escape_char_ascii.
      apply IH; [lia|]. cbn [utf8_valid] in Hs. now rewrite Hc in Hs. }
    cbn [utf8_valid] in Hs. rewrite Hc in Hs.
    destruct (between 194 223 c) eqn:H2.
    { destruct s1 as [|b0 s2]; [discriminate|].
      apply andb_true_iff in Hs as [H1 Hrest].
      cbn [String.length] in Hlen.
      rewrite escape_two by (exact Hc || (eapply between_high; [|exact H1]; lia)).
      cbn [utf8_valid]. rewrite Hc, H2, H1. cbn [andb]. apply IH; [lia | exact Hrest]. }
    destruct (between 224 239 c) eqn:H3.
    { destruct s1 as [|b0 [|c0 s3]]; try discriminate.
      apply andb_true_iff in Hs as [H12 Hrest].
      pose proof H12 as H12'. apply andb_true_iff in H12' as [H1 Hc0].
      cbn [String.length] in Hlen.
      assert (Hb0 : between 0 127 b0 = false).
      { destruct (between 224 224 c); [|destruct (between 237 237 c)];
          (eapply between_high; [|exact H1]; lia). }
      assert (Hc0' : between 0 127 c0 = false)
        by (eapply between_high; [|exact Hc0]; lia).
      rewrite escape_two by assumption. cbn [escape].
      rewrite (escape_char_high c0 Hc0'). cbn [chr String.append].
      cbn [utf8_valid]. rewrite Hc, H2, H3, H12. cbn [andb].
      apply IH; [lia | exact Hrest]. }
    destruct (between 240 244 c) eqn:H4; [|discriminate].
    destruct s1 as [|b0 [|c0 [|d0 s4]]]; try discriminate.
    apply andb_true_iff in Hs as [H123 Hrest].
    pose proof H123 as H123'. apply andb_true_iff in H123' as [H12 Hd0].
    apply andb_true_iff in H12 as [H1 Hc0].
    cbn [String.length] in Hlen.
    assert (Hb0 : between 0 127 b0 = false).
    { destruct (between 240 240 c); [|destruct (between 244 244 c)];
        (eapply between_high; [|exact H1]; lia). }
    assert (Hc0' : between 0 127 c0 = false)
      by (eapply between_high; [|exact Hc0]; lia).
    assert (Hd0' : between 0 127 d0 = false)
      by (eapply between_high; [|exact Hd0]; lia).
    rewrite escape_two by assumption.
    rewrite escape_two by assumption.
    cbn [utf8_valid]. rewrite Hc, H2, H3, H4, H123. cbn [andb].
    apply IH; [lia | exact Hrest].
Qed.

Lemma utf8_valid_escape (s : string) :
  utf8_valid s = true -> utf8_valid (escape s) = true.
Proof. apply (utf8_valid_escape_bounded (String.length s)). lia. Qed.

Lemma utf8_valid_quote (s t : string) :
  utf8_valid s = true -> utf8_valid (quote s +:+ t) = utf8_valid t.
Proof.
  intros Hs. unfold quote. cbn [String.append utf8_valid].
  change (between 0 127 dquote) with true. cbv iota.
  rewrite append_assoc, utf8_valid_append by now apply utf8_valid_escape.
  reflexivity.
Qed.

Lemma utf8_valid_group_items (l : list string) (t : string) :
  Forall (fun s => utf8_valid s = true) l ->
  utf8_valid (group_items l +:+ t) = utf8_valid t.
Proof.
  induction 1 as [|x l Hx Hl IH]; [reflexivity|].
  destruct l as [|y l].
  - cbn [group_items]. now apply utf8_valid_quote.
  - change (group_items (x :: y :: l)) with (quote x +:+ "," +:+ group_items (y :: l)).
    rewrite append_assoc, utf8_valid_quote by exact Hx.
    rewrite append_assoc. cbn [String.append utf8_valid].
    change (between 0 127 ",") with true. cbv iota. exact IH.
Qed.

Lemma utf8_valid_group_array (l : list string) :
  Forall (fun s => utf8_valid s = true) l ->
  utf8_valid (json_group_array l) = true.
Proof.
  intros Hl. unfold json_group_array. cbn [String.append utf8_valid].
  change (between 0 127 "[") with true. cbv iota.
  now rewrite utf8_valid_group_items.
Qed.

Lemma utf8_valid_submitted (answer : string) :
  utf8_valid answer = true -> utf8_valid (submitted answer) = true.
Proof.
  intros Ha. unfold submitted.
  rewrite utf8_valid_append by reflexivity.
  rewrite utf8_valid_append by reflexivity.
  rewrite utf8_valid_append by reflexivity.
  rewrite utf8_valid_append by reflexivity.
  rewrite utf8_valid_append by exact Ha.
  reflexivity.
Qed.

End Utf8.

(* ===================================================================== *)
(** ** Further properties: the client against the server *)
(* ===================================================================== *)

Section ClientFacts.
Import Client.

Lemma wire_headers_agent (version : string) :
  wire_headers version HEADERS !! "user-agent"
  = Some ("Python-urllib/" +:+ version).
Proof. vm_compute. reflexivity. Qed.

Lemma allowed_urllib (version : string) :
  allowed ("Python-urllib/" +:+ version) = true.
Proof. reflexivity. Qed.

Lemma strip_prefix_append (p t : string) : Json.strip_prefix p (p +:+ t) = Some t.
Proof.
  induction p as [|c p IH]; [now destruct t|].
  cbn [String.append Json.strip_prefix]. now rewrite Ascii.eqb_refl.
Qed.

Lemma request_target_word (survey : string) :
  all_chars unreserved survey = true ->
  request_target (SERVER +:+ "/" +:+ survey) = Some ("/" +:+ survey).
Proof.
  intros Hw. unfold request_target. rewrite strip_prefix_append.
  cbn [String.append]. unfold Text.startswith.
  cbn [String.prefix all_chars]. destruct (ascii_dec "/" "/"); try congruence.
  rewrite prefix_empty. cbn [andb].
  replace (all_chars target_char survey) with true; [reflexivity|].
  symmetry. clear -Hw. induction survey as [|c s IH]; [reflexivity|].
  cbn [all_chars] in *. apply andb_true_iff in Hw as [Hc Hs].
  unfold target_char at 1. now rewrite Hc, IH.
Qed.

Lemma unreserved_clean (survey : string) :
  all_chars unreserved survey = true -> Text.occurs Text.slash survey = false.
Proof.
  induction survey as [|c s IH]; [reflexivity|].
  cbn [all_chars Text.occurs]. intros [Hc Hs]%andb_true_iff.
  rewrite (IH Hs), orb_false_r.
  destruct (Ascii.eqb_spec c Text.slash) as [-> | _]; [discriminate Hc | reflexivity].
Qed.

Lemma action_of_word (survey : string) :
  all_chars unreserved survey = true -> action_of ("/" +:+ survey) = survey.
Proof.
  intros Hw. destruct survey as [|c s]; [reflexivity|].
  pose proof (action_of_segment "/" (String c s) EmptyString eq_refl) as H.
  rewrite append_empty_r in H. apply H.
  - discriminate.
  - now apply unreserved_clean.
  - now left.
Qed.

Lemma urlopen_word (survey : string) (d : option string) (st : State) :
  all_chars unreserved survey = true ->
  urlopen {| full_url := SERVER +:+ "/" +:+ survey; request_data := d;
             request_headers := HEADERS |} st
  = let scope := client_scope (python_version st) survey
                   (match d with Some _ => "POST" | None => "GET" end) in
    let proto := sending (match d with Some x => x | None => EmptyString end) in
    let st' := {| server := snd (app scope proto (server st));
                  python_version := python_version st; stdout := stdout st |} in
    match fst (app scope proto (server st)) with
    | Ok r =>
        if (200 <=? status r) && (status r <? 300)
        then (Done {| read := body r |}, st')
        else (Failed (HTTPError (status r)), st')
    | Raise _ => (Failed (HTTPError 500), st')
    end.
Proof.
  intros Hw. unfold urlopen. cbn [full_url request_data request_headers].
  rewrite (request_target_word survey Hw). unfold client_scope. cbv zeta.
  destruct (app _ _ (server st)) as [[r|e] w']; reflexivity.
Qed.

End ClientFacts.

Section ClientCalls.
Import Client.

Lemma show_eval (survey : string) (st : State) :
  show survey st
  = after_urlopen
      (urlopen {| full_url := SERVER +:+ "/" +:+ survey; request_data := None;
                  request_headers := HEADERS |} st).
Proof.
  unfold show, after_urlopen, mbind, C_bind, decode, json_loads, mret, C_ret, fail.
  destruct (urlopen _ st) as [[response|e] st1]; [|reflexivity].
  destruct (Text.utf8_valid (read response)); [|reflexivity].
  destruct (Json.loads (read response)); reflexivity.
Qed.

Lemma submit_eval (survey answer : string) (st : State) :
  submit survey answer st
  = if Text.utf8_valid answer then
      after_urlopen
        (urlopen {| full_url := SERVER +:+ "/" +:+ survey;
                    request_data := Some answer;
                    request_headers := HEADERS |} st)
    else (Failed UnicodeEncodeError, st).
Proof.
  unfold submit, encode. unfold mbind at 1. unfold C_bind at 1.
  destruct (Text.utf8_valid answer); [|reflexivity].
  unfold mret at 1. unfold C_ret at 1.
  unfold after_urlopen, mbind, C_bind, decode, json_loads, mret, C_ret, fail.
  destruct (urlopen _ st) as [[response|e] st1]; [|reflexivity].
  destruct (Text.utf8_valid (read response)); [|reflexivity].
  destruct (Json.loads (read response)); reflexivity.
Qed.



End ClientCalls.



Section ClientRuns.
Import Client.

Lemma client_get (version survey : string) (w : World) :
  all_chars unreserved survey = true ->
  app (client_scope version survey "GET") (sending EmptyString) w
  = if bool_decide (is_Some (current_surveys w !! survey)) then
      (Ok (ok_response (Json.json_group_array (map data (response w)))),
       selected (after_get_surveys w))
    else (Ok (error_response 404 (not_found survey)), after_get_surveys w).
Proof.
  intros Hw. rewrite app_eval. unfold app_outcome.
  cbn [headers path method client_scope].
  rewrite wire_headers_agent, allowed_urllib, (action_of_word survey Hw).
  cbn [negb]. destruct (bool_decide _); cbn [negb]; [|reflexivity].
  cbn [String.eqb Ascii.eqb Bool.eqb]. now rewrite after_get_surveys_response.
Qed.

Lemma client_post (version survey answer : string) (w : World) :
  all_chars unreserved survey = true ->
  Text.utf8_valid answer = true ->
  app (client_scope version survey "POST") (sending answer) w
  = if bool_decide (is_Some (current_surveys w !! survey)) then
      (Ok (ok_response (submitted answer)),
       inserted survey answer ("Python-urllib/" +:+ version) (after_get_surveys w))
    else (Ok (error_response 404 (not_found survey)), after_get_surveys w).
Proof.
  intros Hw Hv. rewrite app_eval. unfold app_outcome.
  cbn [headers path method client_scope].
  rewrite wire_headers_agent, allowed_urllib, (action_of_word survey Hw).
  cbn [negb]. destruct (bool_decide _); cbn [negb]; [|reflexivity].
  cbn [String.eqb Ascii.eqb Bool.eqb received sending]. now rewrite Hv.
Qed.

(** [show] for a survey of the catalog, over stored texts that are
    UTF-8. *)
Lemma show_known (survey : string) (st : State) :
  all_chars unreserved survey = true ->
  is_Some (current_surveys (server st) !! survey) ->
  Forall (fun row => Text.utf8_valid (data row) = true) (response (server st)) ->
  show survey st
  = (Done (Json.Arr (map Json.Str (map data (response (server st))))),
     {| server := selected (after_get_surveys (server st));
        python_version := python_version st; stdout := stdout st |}).
Proof.
  intros Hw Hin Hrows. rewrite show_eval, (urlopen_word survey None st Hw).
  cbv zeta. rewrite (client_get _ survey (server st) Hw).
  rewrite bool_decide_true by exact Hin. cbn [fst snd status ok_response].
  cbn [Z.leb Z.ltb Z.compare Pos.compare Pos.compare_cont andb].
  unfold after_urlopen. cbn [read body ok_response].
  rewrite utf8_valid_group_array, loads_group_array; [reflexivity|].
  apply Forall_map. exact Hrows.
Qed.

(** [submit] for a survey of the catalog. *)
Lemma submit_known (survey answer : string) (st : State) :
  all_chars unreserved survey = true ->
  is_Some (current_surveys (server st) !! survey) ->
  Text.utf8_valid answer = true ->
  submit survey answer st
  = (match Json.loads (submitted answer) with
     | Some v => Done v
     | None => Failed JSONDecodeError
     end,
     {| server := inserted survey answer ("Python-urllib/" +:+ python_version st)
                    (after_get_surveys (server st));
        python_version := python_version st; stdout := stdout st |}).
Proof.
  intros Hw Hin Hv. rewrite submit_eval, Hv, (urlopen_word survey (Some answer) st Hw).
  cbv zeta. rewrite (client_post _ survey answer (server st) Hw Hv).
  rewrite bool_decide_true by exact Hin. cbn [fst snd status ok_response].
  cbn [Z.leb Z.ltb Z.compare Pos.compare Pos.compare_cont andb].
  unfold after_urlopen. cbn [read body ok_response].
  rewrite (utf8_valid_submitted answer Hv).
  destruct (Json.loads (submitted answer)); reflexivity.
Qed.

End ClientRuns.

(** X19: for a survey of the catalog named with letters, digits and
    [-._~] only, over stored answers that are UTF-8, show returns the list
    of all stored answers, those to other surveys included, writes no row
    and prints nothing. *)
Theorem show_returns_all_answers
  (survey : string) (st : Client.State) (surveys : gmap string SurveyInfo) :
  all_chars Client.unreserved survey = true ->
  fst (get_surveys (Client.server st)) = Ok surveys ->
  is_Some (surveys !! survey) ->
  Forall (fun row => Text.utf8_valid (data row) = true)
         (response (Client.server st)) ->
  exists st',
    Client.show survey st
    = (Client.Done (Json.Arr (map (fun row => Json.Str (data row))
                                  (response (Client.server st)))), st') /\
    response (Client.server st') = response (Client.server st) /\
    Client.stdout st' = Client.stdout st.
Proof.
  intros Hw Hs Hin Hrows. apply catalog_is in Hs. subst surveys.
  eexists. split.
  { rewrite (show_known survey st Hw Hin Hrows). now rewrite map_map. }
  split; [apply after_get_surveys_response | reflexivity].
Qed.

Lemma show_returns_all_answers_witness :
  exists st',
    Client.show "automation" busy_client
    = (Client.Done (Json.Arr (map (fun row => Json.Str (data row))
                                  (response (Client.server busy_client)))), st') /\
    response (Client.server st') = response (Client.server busy_client) /\
    Client.stdout st' = Client.stdout busy_client.
Proof.
  apply (show_returns_all_answers "automation" busy_client
           (json_group_object (dbinit_surveys 1669000000 1669975200))).
  - reflexivity.
  - reflexivity.
  - vm_compute. eexists. reflexivity.
  - repeat constructor.
Defined.

(** X20: for a survey of the catalog and an answer without quote,
    backslash and control character, submit stores one row, with the
    User-Agent of urllib as agent, and returns the sentence
    Successfully submitted answer "<answer>". *)
Theorem submit_returns_sentence
  (survey answer : string) (st : Client.State) (surveys : gmap string SurveyInfo) :
  all_chars Client.unreserved survey = true ->
  fst (get_surveys (Client.server st)) = Ok surveys ->
  is_Some (surveys !! survey) ->
  Text.utf8_valid answer = true ->
  plain answer = true ->
  exists st',
    Client.submit survey answer st
    = (Client.Done
         (Json.Str ("Successfully submitted answer " +:+ Text.chr Text.dquote
                    +:+ answer +:+ Text.chr Text.dquote +:+ ".")), st') /\
    response (Client.server st')
    = response (Client.server st) ++
      [{| title := survey; created := clock (Client.server st); data := answer;
          agent := "Python-urllib/" +:+ Client.python_version st |}].
Proof.
  intros Hw Hs Hin Hv Hplain. apply catalog_is in Hs. subst surveys.
  eexists. split.
  { rewrite (submit_known survey answer st Hw Hin Hv).
    destruct (submitted_plain answer (plain_escape answer Hplain)) as [_ ->].
    reflexivity. }
  cbn [Client.server].
  now rewrite inserted_response, after_get_surveys_response, after_get_surveys_clock.
Qed.

Lemma submit_returns_sentence_witness :
  exists st',
    Client.submit "favorite" "Garter snake" fresh_client
    = (Client.Done
         (Json.Str ("Successfully submitted answer " +:+ Text.chr Text.dquote
                    +:+ "Garter snake" +:+ Text.chr Text.dquote +:+ ".")), st') /\
    response (Client.server st')
    = response (Client.server fresh_client) ++
      [{| title := "favorite"; created := clock (Client.server fresh_client);
          data := "Garter snake";
          agent := "Python-urllib/" +:+ Client.python_version fresh_client |}].
Proof.
  apply (submit_returns_sentence "favorite" "Garter snake" fresh_client
           (json_group_object (dbinit_surveys 1669000000 1669975200))).
  - reflexivity.
  - reflexivity.
  - vm_compute. eexists. reflexivity.
  - reflexivity.
  - reflexivity.
Defined.

(** X21: for a survey of the catalog and an answer whose first character
    in need of an escape is a quote, submit stores the row and then fails
    with JSONDecodeError on the reply of the server. *)
Theorem submit_fails_after_storing
  (survey before rest : string) (st : Client.State)
  (surveys : gmap string SurveyInfo) :
  all_chars Client.unreserved survey = true ->
  fst (get_surveys (Client.server st)) = Ok surveys ->
  is_Some (surveys !! survey) ->
  Text.utf8_valid (before +:+ String Text.dquote rest) = true ->
  plain before = true ->
  exists st',
    Client.submit survey (before +:+ String Text.dquote rest) st
    = (Client.Failed Client.JSONDecodeError, st') /\
    response (Client.server st')
    = response (Client.server st) ++
      [{| title := survey; created := clock (Client.server st);
          data := before +:+ String Text.dquote rest;
          agent := "Python-urllib/" +:+ Client.python_version st |}].
Proof.
  intros Hw Hs Hin Hv Hplain. apply catalog_is in Hs. subst surveys.
  eexists. split.
  { rewrite (submit_known survey _ st Hw Hin Hv).
    assert (Hnone : Json.loads (submitted (before +:+ String Text.dquote rest)) = None).
    { unfold Json.loads, Json.loads_fuel.
      rewrite (submitted_cut before rest _ Hplain).
      pose proof (skip_ws_rest rest
                    (String Text.dquote (String "." (Text.chr Text.dquote)))
                    Text.backslash eq_refl) as Hrest.
      destruct (Json.skip_ws _); [congruence | reflexivity]. }
    rewrite Hnone. reflexivity. }
  cbn [Client.server].
  now rewrite inserted_response, after_get_surveys_response, after_get_surveys_clock.
Qed.

Lemma submit_fails_after_storing_witness :
  exists st',
    Client.submit "favorite" ("say " +:+ String Text.dquote "hi") fresh_client
    = (Client.Failed Client.JSONDecodeError, st') /\
    response (Client.server st')
    = response (Client.server fresh_client) ++
      [{| title := "favorite"; created := clock (Client.server fresh_client);
          data := "say " +:+ String Text.dquote "hi";
          agent := "Python-urllib/" +:+ Client.python_version fresh_client |}].
Proof.
  apply (submit_fails_after_storing "favorite" "say " "hi" fresh_client
           (json_group_object (dbinit_surveys 1669000000 1669975200))).
  - reflexivity.
  - reflexivity.
  - vm_compute. eexists. reflexivity.
  - reflexivity.
  - reflexivity.
Defined.

Lemma print_each_eval (l : list Json.value) (st : Client.State) :
  Client.print_each l st
  = (Client.Done tt,
     {| Client.server := Client.server st;
        Client.python_version := Client.python_version st;
        Client.stdout := Client.stdout st ++ map Client.Print l |}).
Proof.
  revert st. induction l as [|v l IH]; intros st.
  - cbn. rewrite app_nil_r. now destruct st.
  - cbn [Client.print_each]. unfold mbind, Client.C_bind, Client.write.
    rewrite IH. cbn [Client.server Client.python_version Client.stdout map].
    now rewrite <- app_assoc.
Qed.

(** X22: run with an empty answer does what run without answer does: it
    retrieves.  For a survey of the catalog it writes no row and prints
    the stored answers, one print each, in their order. *)
Theorem run_empty_answer_retrieves
  (survey : string) (st : Client.State) (surveys : gmap string SurveyInfo) :
  all_chars Client.unreserved survey = true ->
  fst (get_surveys (Client.server st)) = Ok surveys ->
  is_Some (surveys !! survey) ->
  Forall (fun row => Text.utf8_valid (data row) = true)
         (response (Client.server st)) ->
  exists st',
    Client.run survey (Some EmptyString) st = (Client.Done tt, st') /\
    Client.run survey None st = (Client.Done tt, st') /\
    response (Client.server st') = response (Client.server st) /\
    Client.stdout st'
    = Client.stdout st ++
      map (fun row => Client.Print (Json.Str (data row)))
          (response (Client.server st)).
Proof.
  intros Hw Hs Hin Hrows. apply catalog_is in Hs. subst surveys.
  assert (Hrun : exists st',
             Client.run survey None st = (Client.Done tt, st') /\
             response (Client.server st') = response (Client.server st) /\
             Client.stdout st'
             = Client.stdout st ++
               map (fun row => Client.Print (Json.Str (data row)))
                   (response (Client.server st))).
  { eexists. split.
    - unfold Client.run. unfold mbind at 1. unfold Client.C_bind at 1.
      rewrite (show_known survey st Hw Hin Hrows).
      unfold mbind, Client.C_bind, Client.iterate, mret, Client.C_ret.
      rewrite print_each_eval. reflexivity.
    - cbn [Client.server Client.stdout]. split.
      + apply after_get_surveys_response.
      + now rewrite !map_map. }
  destruct Hrun as (st' & Hrun & Hrows' & Hout).
  exists st'. repeat split; assumption.
Qed.

Lemma run_empty_answer_retrieves_witness :
  exists st',
    Client.run "task" (Some EmptyString) busy_client = (Client.Done tt, st') /\
    Client.run "task" None busy_client = (Client.Done tt, st') /\
    response (Client.server st') = response (Client.server busy_client) /\
    Client.stdout st'
    = Client.stdout busy_client ++
      map (fun row => Client.Print (Json.Str (data row)))
          (response (Client.server busy_client)).
Proof.
  apply (run_empty_answer_retrieves "task" busy_client
           (json_group_object (dbinit_surveys 1669000000 1669975200))).
  - reflexivity.
  - reflexivity.
  - vm_compute. eexists. reflexivity.
  - repeat constructor.
Defined.

(** X23: after submit of a UTF-8 answer for a survey of the catalog,
    whether submit returned or failed on the reply, show for any survey of
    the catalog returns a list that holds the answer. *)
Theorem client_round_trip
  (s1 s2 answer : string) (st : Client.State) (surveys : gmap string SurveyInfo) :
  all_chars Client.unreserved s1 = true ->
  all_chars Client.unreserved s2 = true ->
  fst (get_surveys (Client.server st)) = Ok surveys ->
  is_Some (surveys !! s1) ->
  is_Some (surveys !! s2) ->
  Text.utf8_valid answer = true ->
  Forall (fun row => Text.utf8_valid (data row) = true)
         (response (Client.server st)) ->
  exists o st1 answers st2,
    Client.submit s1 answer st = (o, st1) /\
    Client.show s2 st1 = (Client.Done (Json.Arr answers), st2) /\
    In (Json.Str answer) answers.
Proof.
  intros Hw1 Hw2 Hs Hin1 Hin2 Hv Hrows. apply catalog_is in Hs. subst surveys.
  eexists _, _, _, _. split; [apply (submit_known s1 answer st Hw1 Hin1 Hv)|].
  split.
  - apply show_known; [exact Hw2| |]; cbn [Client.server].
    + now rewrite inserted_current, after_get_surveys_current.
    + rewrite inserted_response, after_get_surveys_response.
      apply Forall_app. split; [exact Hrows|]. now constructor.
  - cbn [Client.server]. rewrite inserted_response, !map_app. cbn [map data].
    apply in_or_app. right. now left.
Qed.

Lemma client_round_trip_witness :
  exists o st1 answers st2,
    Client.submit "favorite" quoting_answer busy_client = (o, st1) /\
    Client.show "task" st1 = (Client.Done (Json.Arr answers), st2) /\
    In (Json.Str quoting_answer) answers.
Proof.
  apply (client_round_trip "favorite" "task" quoting_answer busy_client
           (json_group_object (dbinit_surveys 1669000000 1669975200))).
  - reflexivity.
  - reflexivity.
  - reflexivity.
  - vm_compute. eexists. reflexivity.
  - vm_compute. eexists. reflexivity.
  - reflexivity.
  - repeat constructor.
Defined.

(** X24: run with an answer that is not empty and holds no quote,
    backslash or control character, for a survey of the catalog, stores
    one row and pretty-prints the sentence that the server returns, once. *)
Theorem run_with_answer
  (survey answer : string) (st : Client.State) (surveys : gmap string SurveyInfo) :
  all_chars Client.unreserved survey = true ->
  fst (get_surveys (Client.server st)) = Ok surveys ->
  is_Some (surveys !! survey) ->
  answer <> EmptyString ->
  Text.utf8_valid answer = true ->
  plain answer = true ->
  exists st',
    Client.run survey (Some answer) st = (Client.Done tt, st') /\
    Client.stdout st'
    = Client.stdout st ++
      [Client.PPrint
         (Json.Str ("Successfully submitted answer " +:+ Text.chr Text.dquote
                    +:+ answer +:+ Text.chr Text.dquote +:+ "."))] /\
    response (Client.server st')
    = response (Client.server st) ++
      [{| title := survey; created := clock (Client.server st); data := answer;
          agent := "Python-urllib/" +:+ Client.python_version st |}].
Proof.
  intros Hw Hs Hin Hne Hv Hplain. apply catalog_is in Hs. subst surveys.
  destruct answer as [|c answer]; [congruence|].
  eexists. split.
  { unfold Client.run, mbind, Client.C_bind.
    rewrite (submit_known survey _ st Hw Hin Hv).
    destruct (submitted_plain _ (plain_escape _ Hplain)) as [_ ->].
    reflexivity. }
  cbn [Client.stdout Client.server]. split; [reflexivity|].
  now rewrite inserted_response, after_get_surveys_response, after_get_surveys_clock.
Qed.

Lemma run_with_answer_witness :
  exists st',
    Client.run "automation" (Some "Ansible") fresh_client = (Client.Done tt, st') /\
    Client.stdout st'
    = Client.stdout fresh_client ++
      [Client.PPrint
         (Json.Str ("Successfully submitted answer " +:+ Text.chr Text.dquote
                    +:+ "Ansible" +:+ Text.chr Text.dquote +:+ "."))] /\
    response (Client.server st')
    = response (Client.server fresh_client) ++
      [{| title := "automation"; created := clock (Client.server fresh_client);
          data := "Ansible";
          agent := "Python-urllib/" +:+ Client.python_version fresh_client |}].
Proof.
  apply (run_with_answer "automation" "Ansible" fresh_client
           (json_group_object (dbinit_surveys 1669000000 1669975200))).
  - reflexivity.
  - reflexivity.
  - vm_compute. eexists. reflexivity.
  - discriminate.
  - reflexivity.
  - reflexivity.
Defined.
